(** * one-p: conversation orchestration, tool execution and story search

    A shallow embedding of the TypeScript classes
      - [ConversationManager] (the orchestration loop, under [src/ai]),
      - [ToolExecutor]        (tool dispatch, under [src/ai/tools]),
      - [StorageManager]      ([src/storage/index.ts]),
    and of the record types of [src/models/index.ts], together with the
    properties of the orchestration loop, of tool dispatch, of the INVEST
    heuristic and of story search.

    Conventions.  Asynchronous code is modelled sequentially: every
    [await] is a plain call, the program has a single thread of control.
    A computation that may throw is a function from the state of the
    outside world to an outcome and a new world; what it did to the world
    before throwing is kept, as in JavaScript.  The outside world (disk,
    terminal, user, clock, model gateway) is reached only through the
    record [Caps]; theorems quantify over every implementation of it. *)

From Stdlib Require Import String Ascii List ZArith Lia Bool Arith DecimalString.
Import ListNotations.
Open Scope string_scope.
Local Set Warnings "-register-all".

(* ================================================================== *)
(** * JavaScript values *)
(* ================================================================== *)

(** The values that flow through tool inputs and tool results ([unknown]
    in the source).  Numbers are integers: the tool schemas carry no
    fractional number.  An object is the ordered list of its own
    properties. *)
Inductive value : Type :=
| VUndefined
| VNull
| VBool (b : bool)
| VNum (n : Z)
| VStr (s : string)
| VArr (items : list value)
| VObj (fields : list (string * value)).

(** Thrown values.  [error instanceof Error] holds for [JsError] only. *)
Inductive js_error : Type :=
| JsError (name message : string)
| JsThrown (v : value).

(** [error instanceof Error ? error.message : 'Unknown error'] *)
Definition error_message (e : js_error) : string :=
  match e with
  | JsError _ m => m
  | JsThrown _ => "Unknown error"
  end.

Definition TypeError (message : string) : js_error := JsError "TypeError" message.

Module Js.

(** ToBoolean *)
Definition truthy (v : value) : bool :=
  match v with
  | VUndefined | VNull => false
  | VBool b => b
  | VNum n => negb (Z.eqb n 0)
  | VStr s => negb (String.eqb s EmptyString)
  | VArr _ | VObj _ => true
  end.

(** [a || b] *)
Definition or (a b : value) : value := if truthy a then a else b.

(** [a ?? b] *)
Definition nullish (a b : value) : value :=
  match a with
  | VUndefined | VNull => b
  | _ => a
  end.

(** [v === s] for a string literal [s] *)
Definition is_str (v : value) (s : string) : bool :=
  match v with
  | VStr t => String.eqb t s
  | _ => false
  end.

Definition string_of_nat (n : nat) : string :=
  NilZero.string_of_uint (Nat.to_uint n).

Definition string_of_Z (n : Z) : string :=
  NilZero.string_of_int (Z.to_int n).

(** String(v), as used by template literals *)
Fixpoint to_string (v : value) : string :=
  match v with
  | VUndefined => "undefined"
  | VNull => "null"
  | VBool true => "true"
  | VBool false => "false"
  | VNum n => string_of_Z n
  | VStr s => s
  | VArr items =>
      let elem (x : value) : string :=
        match x with
        | VUndefined | VNull => EmptyString
        | _ => to_string x
        end in
      (fix join (l : list value) : string :=
         match l with
         | [] => EmptyString
         | [x] => elem x
         | x :: rest => elem x ++ "," ++ join rest
         end) items
  | VObj _ => "[object Object]"
  end.

(** Own-property lookup, [undefined] when absent. *)
Fixpoint lookup (fields : list (string * value)) (k : string) : value :=
  match fields with
  | [] => VUndefined
  | (k', v) :: rest => if String.eqb k' k then v else lookup rest k
  end.

(** [o[k] = v] on the property list: an existing key keeps its place. *)
Fixpoint set (fields : list (string * value)) (k : string) (v : value)
  : list (string * value) :=
  match fields with
  | [] => [(k, v)]
  | (k', v') :: rest =>
      if String.eqb k' k then (k', v) :: rest else (k', v') :: set rest k v
  end.

Definition assign (fields extra : list (string * value)) : list (string * value) :=
  fold_left (fun acc kv => set acc (fst kv) (snd kv)) extra fields.

Fixpoint indexed (i : nat) (l : list value) : list (string * value) :=
  match l with
  | [] => []
  | x :: rest => (string_of_nat i, x) :: indexed (S i) rest
  end.

Fixpoint chars (s : string) : list value :=
  match s with
  | EmptyString => []
  | String c rest => VStr (String c EmptyString) :: chars rest
  end.

(** The own enumerable properties copied by [{...v}]. *)
Definition spread (v : value) : list (string * value) :=
  match v with
  | VObj fields => fields
  | VArr items => indexed 0 items
  | VStr s => indexed 0 (chars s)
  | _ => []
  end.

(** [v.k]: throws on [undefined] and [null]. *)
Definition prop (v : value) (k : string) : js_error + value :=
  match v with
  | VUndefined =>
      inl (TypeError ("Cannot read properties of undefined (reading '" ++ k ++ "')"))
  | VNull =>
      inl (TypeError ("Cannot read properties of null (reading '" ++ k ++ "')"))
  | VObj fields => inr (lookup fields k)
  | _ => inr VUndefined
  end.

(** ASCII [toLowerCase]. *)
Definition lower_ascii (c : ascii) : ascii :=
  let n := nat_of_ascii c in
  if (65 <=? n)%nat && (n <=? 90)%nat then ascii_of_nat (n + 32) else c.

Fixpoint toLowerCase (s : string) : string :=
  match s with
  | EmptyString => EmptyString
  | String c rest => String (lower_ascii c) (toLowerCase rest)
  end.

(** [hay.includes(needle)] *)
Fixpoint includes (hay needle : string) : bool :=
  if String.prefix needle hay then true
  else match hay with
       | EmptyString => false
       | String _ rest => includes rest needle
       end.

End Js.

(* ================================================================== *)
(** * Computations that may throw *)
(* ================================================================== *)

Inductive outcome (A : Type) : Type :=
| Ok (a : A)
| Throw (e : js_error).
Arguments Ok {A} a.
Arguments Throw {A} e.

Definition M (W A : Type) : Type := W -> outcome A * W.

Definition ret {W A} (a : A) : M W A := fun w => (Ok a, w).

Definition throw {W A} (e : js_error) : M W A := fun w => (Throw e, w).

Definition bind {W A B} (m : M W A) (k : A -> M W B) : M W B :=
  fun w =>
    match m w with
    | (Ok a, w') => k a w'
    | (Throw e, w') => (Throw e, w')
    end.

(** [try { body } catch (error) { handler(error) }] *)
Definition try_catch {W A} (body : M W A) (handler : js_error -> M W A) : M W A :=
  fun w =>
    match body w with
    | (Ok a, w') => (Ok a, w')
    | (Throw e, w') => handler e w'
    end.

(** A pure step that may throw. *)
Definition lift {W A} (r : js_error + A) : M W A :=
  match r with
  | inl e => throw e
  | inr a => ret a
  end.

(** An effect that cannot throw. *)
Definition effect {W} (f : W -> W) : M W unit := fun w => (Ok tt, f w).

Definition read {W A} (f : W -> A * W) : M W A :=
  fun w => let (a, w') := f w in (Ok a, w').

Declare Scope js_scope.
Delimit Scope js_scope with js.
Notation "x <- m ;; k" := (bind m (fun x => k))
  (at level 61, m at next level, right associativity) : js_scope.
Notation "m ;;; k" := (bind m (fun _ => k))
  (at level 61, right associativity) : js_scope.

(** [m] returns normally from [w]. *)
Definition returns {W A} (m : M W A) (w : W) : Prop :=
  exists a w', m w = (Ok a, w').


(* ================================================================== *)
(** * Data model ([src/models/index.ts]) *)
(* ================================================================== *)

Inductive StoryStatus := draft | ready | in_progress | done.
Inductive Priority := low | medium | high | critical.
Inductive StoryType := user_story | technical_story | bug | spike.

Definition StoryStatus_str (s : StoryStatus) : string :=
  match s with
  | draft => "draft" | ready => "ready" | in_progress => "in-progress" | done => "done"
  end.

Definition Priority_str (p : Priority) : string :=
  match p with
  | low => "low" | medium => "medium" | high => "high" | critical => "critical"
  end.

Definition StoryType_str (t : StoryType) : string :=
  match t with
  | user_story => "user-story" | technical_story => "technical-story"
  | bug => "bug" | spike => "spike"
  end.

Record AcceptanceCriterion := {
  text : string;
  completed : bool
}.

(** A story as [StorySchema.parse] returns it: optional fields are
    [None] when [undefined]. *)
Record Story := {
  id : string;
  title : string;
  type : StoryType;
  status : StoryStatus;
  priority : Priority;
  feature : option string;
  persona : option string;
  asA : option string;
  iWant : option string;
  soThat : option string;
  acceptanceCriteria : list AcceptanceCriterion;
  openQuestions : list string;
  edgeCases : list string;
  dependencies : list string;
  relatedStories : list string;
  estimate : option string;
  tags : list string;
  createdAt : string;
  updatedAt : string
}.

Record Feature := {
  f_id : string;
  f_title : string;
  f_description : option string;
  f_status : StoryStatus;
  f_priority : Priority;
  f_successCriteria : list string;
  f_stories : list string;
  f_tags : list string;
  f_createdAt : string;
  f_updatedAt : string
}.

Record DimensionScore := {
  score : Z;
  feedback : string
}.

Record InvestAnalysis := {
  independent : DimensionScore;
  negotiable : DimensionScore;
  valuable : DimensionScore;
  estimable : DimensionScore;
  small : DimensionScore;
  testable : DimensionScore;
  overallScore : Z;
  suggestions : list string
}.

(** The typed records seen as JavaScript objects. *)
Module Obj.

Definition opt (o : option string) : value :=
  match o with
  | Some s => VStr s
  | None => VUndefined
  end.

Definition strings (l : list string) : value := VArr (map VStr l).

Definition criterion (ac : AcceptanceCriterion) : value :=
  VObj [("text", VStr (text ac)); ("completed", VBool (completed ac))].

Definition story (s : Story) : list (string * value) :=
  [ ("id", VStr (id s));
    ("title", VStr (title s));
    ("type", VStr (StoryType_str (type s)));
    ("status", VStr (StoryStatus_str (status s)));
    ("priority", VStr (Priority_str (priority s)));
    ("feature", opt (feature s));
    ("persona", opt (persona s));
    ("asA", opt (asA s));
    ("iWant", opt (iWant s));
    ("soThat", opt (soThat s));
    ("acceptanceCriteria", VArr (map criterion (acceptanceCriteria s)));
    ("openQuestions", strings (openQuestions s));
    ("edgeCases", strings (edgeCases s));
    ("dependencies", strings (dependencies s));
    ("relatedStories", strings (relatedStories s));
    ("estimate", opt (estimate s));
    ("tags", strings (tags s));
    ("createdAt", VStr (createdAt s));
    ("updatedAt", VStr (updatedAt s)) ].

Definition dimension (d : DimensionScore) : value :=
  VObj [("score", VNum (score d)); ("feedback", VStr (feedback d))].

Definition analysis (a : InvestAnalysis) : value :=
  VObj [ ("independent", dimension (independent a));
         ("negotiable", dimension (negotiable a));
         ("valuable", dimension (valuable a));
         ("estimable", dimension (estimable a));
         ("small", dimension (small a));
         ("testable", dimension (testable a));
         ("overallScore", VNum (overallScore a));
         ("suggestions", strings (suggestions a)) ].

End Obj.

(* ================================================================== *)
(** * Messages and gateway responses *)
(* ================================================================== *)

(** [Anthropic.Messages.ContentBlock], with the tool-result parameter
    block the orchestrator stores in the same array.  [OtherBlock] stands
    for the block types the loop ignores. *)
Record ToolUse := {
  tu_id : string;
  tu_name : string;
  tu_input : list (string * value)
}.

Record ToolResultParam := {
  tool_use_id : string;
  tr_content : string
}.

Inductive ContentBlock : Type :=
| TextBlock (text : string)
| ToolUseBlock (u : ToolUse)
| ToolResultBlock (r : ToolResultParam)
| OtherBlock (type : string).

Inductive MessageRole := user | assistant.

(** [content: string | ContentBlock[]] *)
Inductive MessageContent : Type :=
| Plain (s : string)
| Blocks (l : list ContentBlock).

Record ConversationMessage := {
  role : MessageRole;
  content : MessageContent
}.

Inductive StopReason :=
| end_turn | max_tokens | stop_sequence | tool_use | pause_turn | refusal.

Definition StopReason_eqb (a b : StopReason) : bool :=
  match a, b with
  | end_turn, end_turn | max_tokens, max_tokens | stop_sequence, stop_sequence
  | tool_use, tool_use | pause_turn, pause_turn | refusal, refusal => true
  | _, _ => false
  end.

(** The part of [Anthropic.Messages.Message] the loop reads;
    [stop_reason] may be [null]. *)
Record Response := {
  r_content : list ContentBlock;
  stop_reason : option StopReason
}.

(** [response.stop_reason === r] *)
Definition stop_reason_is (resp : Response) (r : StopReason) : bool :=
  match stop_reason resp with
  | Some r' => StopReason_eqb r' r
  | None => false
  end.

(* ================================================================== *)
(** * Tool results and the outside world *)
(* ================================================================== *)

Record ToolResult := {
  success : bool;
  data : option value;
  error : option string;
  requiresUserInput : option bool;
  userInput : option value
}.

(** [{ success: true, data }] *)
Definition succeeded (d : value) : ToolResult :=
  {| success := true; data := Some d; error := None;
     requiresUserInput := None; userInput := None |}.

(** [{ success: false, error }] *)
Definition failed (msg : string) : ToolResult :=
  {| success := false; data := None; error := Some msg;
     requiresUserInput := None; userInput := None |}.

(** What the program writes to the terminal. *)
Inductive ui_event : Type :=
| SpinnerStart (label : string)
| SpinnerStop (ok : bool) (label : option string)
| ConsoleLog (line : string)
| ConsoleError (line : string)
| AIResponse (text : string)
| DisplayDraft (heading : string) (draft : value)
| DisplayStoryList (stories : list Story)
| DisplayFeature (f : Feature) (storyCount : nat).

(** The capabilities the program consumes.  The five storage fields are
    the methods of [StorageManager] that go to the file system (they
    throw when the file system does), the four prompts are the
    [inquirer] wrappers of the UI module (they reject when the user
    closes the prompt), [sendMessage] is the gateway call of the client
    module.  Terminal output and the clock do not throw.
    [JSON_stringify] is the platform serializer applied to tool
    results; the loop stores its output and never reads it. *)
Record Caps (W : Type) := {
  storage_createStory : value -> M W unit;
  storage_getStory : value -> value -> M W (option Story);
  storage_listStories : value -> M W (list Story);
  storage_createFeature : value -> M W unit;
  storage_listFeatures : M W (list Feature);
  askSelect : value -> list value -> M W value;
  askMultiSelect : value -> list value -> M W (list value);
  askQuestion : string -> M W string;
  askConfirm : string -> bool -> M W bool;
  emit : ui_event -> W -> W;
  now : W -> string * W;
  sendMessage : string -> list ConversationMessage -> M W Response;
  JSON_stringify : ToolResult -> string
}.
Arguments storage_createStory {W}.
Arguments storage_getStory {W}.
Arguments storage_listStories {W}.
Arguments storage_createFeature {W}.
Arguments storage_listFeatures {W}.
Arguments askSelect {W}.
Arguments askMultiSelect {W}.
Arguments askQuestion {W}.
Arguments askConfirm {W}.
Arguments emit {W}.
Arguments now {W}.
Arguments sendMessage {W}.
Arguments JSON_stringify {W}.

(** The double-quote character of the message templates. *)
Definition dq : string := String (ascii_of_nat 34) EmptyString.

(** [`"${s}"`] *)
Definition quoted (s : string) : string := dq ++ s ++ dq.

(* ================================================================== *)
(** * StorageManager ([src/storage/index.ts]) *)
(* ================================================================== *)

Module StorageManager.
Section WithCaps.
Context {W : Type} (caps : Caps W).
Local Open Scope js_scope.

(** [story.updatedAt = new Date().toISOString(); await this.createStory(story)] *)
Definition updateStory (story : list (string * value)) : M W unit :=
  t <- read (now caps) ;;
  storage_createStory caps (VObj (Js.set story "updatedAt" (VStr t))).

(** [.filter(Boolean)] on the fields of the search text *)
Fixpoint keep_truthy (l : list (option string)) : list string :=
  match l with
  | [] => []
  | Some s :: rest =>
      if String.eqb s EmptyString then keep_truthy rest else s :: keep_truthy rest
  | None :: rest => keep_truthy rest
  end.

Definition searchFields (story : Story) : list (option string) :=
  [Some (title story); asA story; iWant story; soThat story]
    ++ map (fun ac => Some (text ac)) (acceptanceCriteria story)
    ++ map Some (openQuestions story)
    ++ map Some (edgeCases story)
    ++ map Some (tags story).

(** The local [searchText] of [searchStories]. *)
Definition searchText (story : Story) : string :=
  Js.toLowerCase (String.concat " " (keep_truthy (searchFields story))).

(** [query.toLowerCase()] on whatever the caller passed as [query]. *)
Definition lowerQuery (query : value) : js_error + string :=
  match query with
  | VStr q => inr (Js.toLowerCase q)
  | VUndefined =>
      inl (TypeError "Cannot read properties of undefined (reading 'toLowerCase')")
  | VNull =>
      inl (TypeError "Cannot read properties of null (reading 'toLowerCase')")
  | _ => inl (TypeError "query.toLowerCase is not a function")
  end.

Definition searchStories (query : value) : M W (list Story) :=
  allStories <- storage_listStories caps VUndefined ;;
  lq <- lift (lowerQuery query) ;;
  ret (filter (fun story => Js.includes (searchText story) lq) allStories).

End WithCaps.
End StorageManager.

(* ================================================================== *)
(** * ToolExecutor *)
(* ================================================================== *)

Module ToolExecutor.

(** [xs.map(f)] on a value cast to an array: a [TypeError] when the
    value has no [map] method. *)
Fixpoint map_items (f : value -> js_error + value) (items : list value)
  : js_error + list value :=
  match items with
  | [] => inr []
  | x :: rest =>
      match f x with
      | inl e => inl e
      | inr y =>
          match map_items f rest with
          | inl e => inl e
          | inr ys => inr (y :: ys)
          end
      end
  end.

Definition array_map (what : string) (v : value) (f : value -> js_error + value)
  : js_error + value :=
  match v with
  | VArr items =>
      match map_items f items with
      | inl e => inl e
      | inr ys => inr (VArr ys)
      end
  | VUndefined =>
      inl (TypeError "Cannot read properties of undefined (reading 'map')")
  | VNull =>
      inl (TypeError "Cannot read properties of null (reading 'map')")
  | _ => inl (TypeError (what ++ ".map is not a function"))
  end.

(** [(text) => ({ text, completed: false })] *)
Definition criterion_of_text (t : value) : js_error + value :=
  inr (VObj [("text", t); ("completed", VBool false)]).

(** [(opt) => ({ label: opt.label, value: opt.value, description: opt.description })] *)
Definition question_option (opt : value) : js_error + value :=
  match Js.prop opt "label" with
  | inl e => inl e
  | inr l =>
      match Js.prop opt "value" with
      | inl e => inl e
      | inr v =>
          match Js.prop opt "description" with
          | inl e => inl e
          | inr d => inr (VObj [("label", l); ("value", v); ("description", d)])
          end
      end
  end.

Definition custom_option : value :=
  VObj [ ("label", VStr "Other (custom answer)");
         ("value", VStr "__custom__");
         ("description", VStr "Enter your own answer") ].

(** [Array.isArray(answer) && answer.includes('__custom__')] *)
Definition includes_custom (answer : value) : bool :=
  match answer with
  | VArr items => existsb (fun a => Js.is_str a "__custom__") items
  | _ => false
  end.

(** The summaries the listing tools return for each record. *)
Definition story_summary (s : Story) : value :=
  VObj [ ("id", VStr (id s)); ("title", VStr (title s));
         ("status", VStr (StoryStatus_str (status s)));
         ("priority", VStr (Priority_str (priority s)));
         ("feature", Obj.opt (feature s)) ].

Definition story_hit (s : Story) : value :=
  VObj [ ("id", VStr (id s)); ("title", VStr (title s));
         ("status", VStr (StoryStatus_str (status s)));
         ("feature", Obj.opt (feature s)) ].

Definition feature_summary (f : Feature) : value :=
  VObj [ ("id", VStr (f_id f)); ("title", VStr (f_title f));
         ("status", VStr (StoryStatus_str (f_status f))) ].

Definition count (A : Type) (l : list A) : value := VNum (Z.of_nat (length l)).
Arguments count {A} l.

(** ** The INVEST heuristic of [analyzeStoryQuality] *)

(** [story.soThat ? ... : ...] *)
Definition has_soThat (story : Story) : bool :=
  match soThat story with
  | Some s => negb (String.eqb s EmptyString)
  | None => false
  end.

(** [Math.round(a / b)] for integers [a] and [b > 0]: the nearest
    integer, a half rounding up. *)
Definition round_div (a b : Z) : Z := ((2 * a + b) / (2 * b))%Z.

Definition dimension_scores (a : InvestAnalysis) : list Z :=
  [ score (independent a); score (negotiable a); score (valuable a);
    score (estimable a); score (small a); score (testable a) ].

(** The object literal [analysis], before the two updates. *)
Definition initialAnalysis (story : Story) : InvestAnalysis :=
  let deps := length (dependencies story) in
  let questions := length (openQuestions story) in
  let criteria := length (acceptanceCriteria story) in
  {| independent :=
       {| score := if (deps =? 0)%nat then 10 else 5;
          feedback := if (deps =? 0)%nat then "Story has no dependencies"
                      else "Story has " ++ Js.string_of_nat deps ++ " dependencies" |};
     negotiable :=
       {| score := if (0 <? questions)%nat then 8 else 6;
          feedback := if (0 <? questions)%nat
                      then "Open questions indicate room for negotiation"
                      else "Consider adding open questions for flexibility" |};
     valuable :=
       {| score := if has_soThat story then 8 else 4;
          feedback := if has_soThat story then "Value proposition is defined"
                      else "Missing " ++ quoted "so that" ++ " clause" |};
     estimable :=
       {| score := if (3 <=? criteria)%nat then 8 else 5;
          feedback := if (3 <=? criteria)%nat
                      then "Sufficient acceptance criteria for estimation"
                      else "Add more acceptance criteria for better estimation" |};
     small :=
       {| score := if (criteria <=? 7)%nat then 8 else 4;
          feedback := if (criteria <=? 7)%nat
                      then "Story appears to be appropriately sized"
                      else "Consider splitting - too many acceptance criteria" |};
     testable :=
       {| score := if (0 <? criteria)%nat then 8 else 2;
          feedback := if (0 <? criteria)%nat
                      then "Acceptance criteria provide testability"
                      else "Add acceptance criteria for testability" |};
     overallScore := 0;
     suggestions := [] |}.

(** [if (cond) analysis.suggestions.push(msg)] *)
Definition push_if (cond : bool) (msg : string) (l : list string) : list string :=
  if cond then (l ++ [msg])%list else l.

Definition generateSuggestions (a : InvestAnalysis) : list string :=
  let s0 := suggestions a in
  let s1 := push_if (score (independent a) <? 7)%Z
              "Consider reducing dependencies on other stories" s0 in
  let s2 := push_if (score (valuable a) <? 7)%Z
              ("Clarify the business value with a stronger " ++ quoted "so that" ++ " clause") s1 in
  let s3 := push_if (score (estimable a) <? 7)%Z
              "Add more specific acceptance criteria" s2 in
  let s4 := push_if (score (small a) <? 7)%Z
              "Consider breaking this story into smaller pieces" s3 in
  push_if (score (testable a) <? 7)%Z "Add measurable acceptance criteria" s4.

(** The [analysis] object as returned: score computed, suggestions pushed. *)
Definition investAnalysis (story : Story) : InvestAnalysis :=
  let a := initialAnalysis story in
  let scores := dimension_scores a in
  let overall := round_div (fold_left Z.add scores 0%Z) (Z.of_nat (length scores)) in
  {| independent := independent a;
     negotiable := negotiable a;
     valuable := valuable a;
     estimable := estimable a;
     small := small a;
     testable := testable a;
     overallScore := overall;
     suggestions := generateSuggestions a |}.

Section WithCaps.
Context {W : Type} (caps : Caps W).
Local Open Scope js_scope.

(** The [catch] clause shared by the nine handlers:
    [return { success: false, error: `<prefix>: ${message}` }] *)
Definition caught (prefix : string) (error : js_error) : M W ToolResult :=
  ret (failed (prefix ++ ": " ++ error_message error)).

(** The [try] block of [createStory]. *)
Definition createStory_body (input : list (string * value)) : M W ToolResult :=
  criteria <- lift (array_map "(intermediate value)"
                      (Js.or (Js.lookup input "acceptanceCriteria") (VArr []))
                      criterion_of_text) ;;
  created <- read (now caps) ;;
  updated <- read (now caps) ;;
  let story :=
    [ ("id", Js.lookup input "id");
      ("title", Js.lookup input "title");
      ("type", VStr "user-story");
      ("status", VStr "draft");
      ("priority", Js.or (Js.lookup input "priority") (VStr "medium"));
      ("feature", Js.lookup input "feature");
      ("asA", Js.lookup input "asA");
      ("iWant", Js.lookup input "iWant");
      ("soThat", Js.lookup input "soThat");
      ("acceptanceCriteria", criteria);
      ("openQuestions", Js.or (Js.lookup input "openQuestions") (VArr []));
      ("edgeCases", Js.or (Js.lookup input "edgeCases") (VArr []));
      ("dependencies", VArr []);
      ("relatedStories", VArr []);
      ("tags", VArr []);
      ("createdAt", VStr created);
      ("updatedAt", VStr updated) ] in
  storage_createStory caps (VObj story) ;;;
  ret (succeeded
         (VObj [ ("message",
                  VStr ("Story " ++ quoted (Js.to_string (Js.lookup story "title"))
                        ++ " created successfully"));
                 ("storyId", Js.lookup story "id");
                 ("feature", Js.or (Js.lookup story "feature") (VStr "backlog")) ])).

Definition createStory (input : list (string * value)) : M W ToolResult :=
  try_catch (createStory_body input) (caught "Failed to create story").

(** The [try] block of [updateStory]. *)
Definition updateStory_body (input : list (string * value)) : M W ToolResult :=
  let storyId := Js.lookup input "id" in
  let featureId := Js.or (Js.lookup input "feature") (VStr "backlog") in
  let updates := Js.lookup input "updates" in
  existing <- storage_getStory caps featureId storyId ;;
  match existing with
  | None =>
      ret (failed ("Story " ++ quoted (Js.to_string storyId)
                   ++ " not found in feature " ++ quoted (Js.to_string featureId)))
  | Some existingStory =>
      t <- read (now caps) ;;
      let updatedStory :=
        Js.set (Js.assign (Obj.story existingStory) (Js.spread updates))
               "updatedAt" (VStr t) in
      newCriteria <- lift (Js.prop updates "acceptanceCriteria") ;;
      updatedStory' <-
        (if Js.truthy newCriteria
         then criteria <- lift (array_map "updates.acceptanceCriteria"
                                  newCriteria criterion_of_text) ;;
              ret (Js.set updatedStory "acceptanceCriteria" criteria)
         else ret updatedStory) ;;
      StorageManager.updateStory caps updatedStory' ;;;
      ret (succeeded
             (VObj [ ("message",
                      VStr ("Story " ++ quoted (Js.to_string storyId)
                            ++ " updated successfully")) ]))
  end.

Definition updateStory (input : list (string * value)) : M W ToolResult :=
  try_catch (updateStory_body input) (caught "Failed to update story").

(** The [try] block of [listStories]. *)
Definition listStories_body (input : list (string * value)) : M W ToolResult :=
  let featureId := Js.lookup input "feature" in
  let statusFilter := Js.lookup input "status" in
  all <- storage_listStories caps featureId ;;
  let stories :=
    if Js.truthy statusFilter
    then filter (fun s => Js.is_str statusFilter (StoryStatus_str (status s))) all
    else all in
  effect (emit caps (DisplayStoryList stories)) ;;;
  ret (succeeded
         (VObj [ ("count", count stories);
                 ("stories", VArr (map story_summary stories)) ])).

Definition listStories (input : list (string * value)) : M W ToolResult :=
  try_catch (listStories_body input) (caught "Failed to list stories").

(** The [try] block of [createFeature]. *)
Definition createFeature_body (input : list (string * value)) : M W ToolResult :=
  created <- read (now caps) ;;
  updated <- read (now caps) ;;
  let feature :=
    [ ("id", Js.lookup input "id");
      ("title", Js.lookup input "title");
      ("description", Js.lookup input "description");
      ("status", VStr "draft");
      ("priority", Js.or (Js.lookup input "priority") (VStr "medium"));
      ("successCriteria", Js.or (Js.lookup input "successCriteria") (VArr []));
      ("stories", VArr []);
      ("tags", VArr []);
      ("createdAt", VStr created);
      ("updatedAt", VStr updated) ] in
  storage_createFeature caps (VObj feature) ;;;
  ret (succeeded
         (VObj [ ("message",
                  VStr ("Feature " ++ quoted (Js.to_string (Js.lookup feature "title"))
                        ++ " created successfully"));
                 ("featureId", Js.lookup feature "id") ])).

Definition createFeature (input : list (string * value)) : M W ToolResult :=
  try_catch (createFeature_body input) (caught "Failed to create feature").

(** [for (const feature of features) { ... displayFeature(feature, stories.length) }] *)
Fixpoint displayFeatures (features : list Feature) : M W unit :=
  match features with
  | [] => ret tt
  | f :: rest =>
      stories <- storage_listStories caps (VStr (f_id f)) ;;
      effect (emit caps (DisplayFeature f (length stories))) ;;;
      displayFeatures rest
  end.

(** The [try] block of [listFeatures]. *)
Definition listFeatures_body : M W ToolResult :=
  features <- storage_listFeatures caps ;;
  displayFeatures features ;;;
  ret (succeeded
         (VObj [ ("count", count features);
                 ("features", VArr (map feature_summary features)) ])).

Definition listFeatures : M W ToolResult :=
  try_catch listFeatures_body (caught "Failed to list features").

(** The [try] block of [searchStories]. *)
Definition searchStories_body (input : list (string * value)) : M W ToolResult :=
  let query := Js.lookup input "query" in
  stories <- StorageManager.searchStories caps query ;;
  effect (emit caps (DisplayStoryList stories)) ;;;
  ret (succeeded
         (VObj [ ("query", query);
                 ("count", count stories);
                 ("stories", VArr (map story_hit stories)) ])).

Definition searchStories (input : list (string * value)) : M W ToolResult :=
  try_catch (searchStories_body input) (caught "Failed to search stories").

(** The [try] block of [askUserQuestion]. *)
Definition askUserQuestion_body (input : list (string * value)) : M W ToolResult :=
  let question := Js.lookup input "question" in
  let options := Js.lookup input "options" in
  let allowCustom := Js.nullish (Js.lookup input "allowCustom") (VBool true) in
  let multiSelect := Js.nullish (Js.lookup input "multiSelect") (VBool false) in
  mapped <- lift (array_map "options" options question_option) ;;
  let questionOptions :=
    match mapped with
    | VArr items => if Js.truthy allowCustom then (items ++ [custom_option])%list else items
    | _ => []
    end in
  answer <-
    (if Js.truthy multiSelect
     then selected <- askMultiSelect caps question questionOptions ;;
          ret (VArr selected)
     else askSelect caps question questionOptions) ;;
  answer' <-
    (if Js.is_str answer "__custom__" || includes_custom answer
     then customAnswer <- askQuestion caps "Please enter your answer:" ;;
          match answer with
          | VArr items =>
              ret (VArr (filter (fun a => negb (Js.is_str a "__custom__")) items
                         ++ [VStr customAnswer])%list)
          | _ => ret (VStr customAnswer)
          end
     else ret answer) ;;
  ret {| success := true;
         data := Some (VObj [("question", question); ("answer", answer')]);
         error := None;
         requiresUserInput := Some true;
         userInput := Some answer' |}.

Definition askUserQuestion (input : list (string * value)) : M W ToolResult :=
  try_catch (askUserQuestion_body input) (caught "Failed to get user input").

(** The object [draft] of [presentDraft]. *)
Definition draft (input : list (string * value)) : value :=
  VObj [ ("title", Js.lookup input "title");
         ("As a", Js.lookup input "asA");
         ("I want", Js.lookup input "iWant");
         ("So that", Js.lookup input "soThat");
         ("Acceptance Criteria", Js.lookup input "acceptanceCriteria");
         ("Priority", Js.lookup input "priority");
         ("Edge Cases", Js.lookup input "edgeCases");
         ("Open Questions", Js.lookup input "openQuestions") ].

(** The [try] block of [presentDraft]. *)
Definition presentDraft_body (input : list (string * value)) : M W ToolResult :=
  effect (emit caps (DisplayDraft "Story Draft" (draft input))) ;;;
  approved <- askConfirm caps "Do you approve this story draft?" true ;;
  if approved
  then ret (succeeded
              (VObj [ ("approved", VBool true);
                      ("message", VStr "Draft approved by user") ]))
  else feedback <- askQuestion caps "What would you like to change?" ;;
       ret (succeeded
              (VObj [ ("approved", VBool false); ("feedback", VStr feedback) ])).

Definition presentDraft (input : list (string * value)) : M W ToolResult :=
  try_catch (presentDraft_body input) (caught "Failed to present draft").

(** The [try] block of [analyzeStoryQuality]. *)
Definition analyzeStoryQuality_body (input : list (string * value)) : M W ToolResult :=
  let storyId := Js.lookup input "storyId" in
  let featureId := Js.lookup input "featureId" in
  found <- storage_getStory caps featureId storyId ;;
  match found with
  | None => ret (failed ("Story " ++ quoted (Js.to_string storyId) ++ " not found"))
  | Some story =>
      ret (succeeded
             (VObj [ ("storyId", storyId);
                     ("analysis", Obj.analysis (investAnalysis story)) ]))
  end.

Definition analyzeStoryQuality (input : list (string * value)) : M W ToolResult :=
  try_catch (analyzeStoryQuality_body input) (caught "Failed to analyze story").

(** The names of the [switch] of [execute]. *)
Definition registered : list string :=
  [ "create_story"; "update_story"; "list_stories"; "create_feature";
    "list_features"; "search_stories"; "ask_user_question"; "present_draft";
    "analyze_story_quality" ].

Definition execute (toolName : string) (input : list (string * value))
  : M W ToolResult :=
  if toolName =? "create_story" then createStory input
  else if toolName =? "update_story" then updateStory input
  else if toolName =? "list_stories" then listStories input
  else if toolName =? "create_feature" then createFeature input
  else if toolName =? "list_features" then listFeatures
  else if toolName =? "search_stories" then searchStories input
  else if toolName =? "ask_user_question" then askUserQuestion input
  else if toolName =? "present_draft" then presentDraft input
  else if toolName =? "analyze_story_quality" then analyzeStoryQuality input
  else ret (failed ("Unknown tool: " ++ toolName)).

End WithCaps.
End ToolExecutor.

(** A handler returns what its [try] block returns, and the failure
    envelope with the block's error message when the block throws. *)
Definition converts {W} (prefix : string) (body handler : M W ToolResult) : Prop :=
  forall w,
    match body w with
    | (Ok r, w') => handler w = (Ok r, w')
    | (Throw e, w') =>
        handler w = (Ok (failed (prefix ++ ": " ++ error_message e)), w')
    end.

(* ================================================================== *)
(** * ConversationManager *)
(* ================================================================== *)

(** The fixed system prompt [BA_SYSTEM_PROMPT]; the loop passes it on
    and never reads it, only its opening sentence is spelled out. *)
Definition BA_SYSTEM_PROMPT : string :=
  "You are an expert Business Analyst and Product Owner assistant, helping users write high-quality user stories, manage features, and track requirements.".

Module ConversationManager.

(** The manager's fields next to the outside world. *)
Record State (W : Type) := {
  world : W;
  messages : list ConversationMessage;
  systemPrompt : string
}.
Arguments world {W}.
Arguments messages {W}.
Arguments systemPrompt {W}.

(** [new ConversationManager(projectPath, customSystemPrompt)] *)
Definition create {W} (w : W) (customSystemPrompt : option string) : State W :=
  {| world := w;
     messages := [];
     systemPrompt :=
       match customSystemPrompt with
       | Some p => if String.eqb p EmptyString then BA_SYSTEM_PROMPT else p
       | None => BA_SYSTEM_PROMPT
       end |}.

(** [this.messages.push(m)] *)
Definition push {W} (m : ConversationMessage) (s : State W) : State W :=
  {| world := world s; messages := (messages s ++ [m])%list; systemPrompt := systemPrompt s |}.

Definition with_world {W} (s : State W) (w : W) : State W :=
  {| world := w; messages := messages s; systemPrompt := systemPrompt s |}.

(** A computation on the outside world, run from inside the manager. *)
Definition on_world {W A} (m : M W A) : M (State W) A :=
  fun s => let (r, w) := m (world s) in (r, with_world s w).

Section WithCaps.
Context {W : Type} (caps : Caps W).
Local Open Scope js_scope.

Definition say (ev : ui_event) : M (State W) unit :=
  on_world (effect (emit caps ev)).

(** The first loop of [handleResponse]: show the text blocks, collect
    the tool-use blocks in order. *)
Fixpoint scanBlocks (blocks : list ContentBlock)
  (hasText : bool) (toolUseBlocks : list ToolUse)
  : M (State W) (bool * list ToolUse) :=
  match blocks with
  | [] => ret (hasText, toolUseBlocks)
  | TextBlock t :: rest =>
      say (ConsoleLog EmptyString) ;;;
      say (AIResponse t) ;;;
      scanBlocks rest true toolUseBlocks
  | ToolUseBlock u :: rest =>
      scanBlocks rest hasText (toolUseBlocks ++ [u])%list
  | _ :: rest => scanBlocks rest hasText toolUseBlocks
  end.

(** The second loop: run each requested tool in order and collect one
    tool-result block per request. *)
Fixpoint runTools (toolUseBlocks : list ToolUse) (toolResults : list ToolResultParam)
  : M (State W) (list ToolResultParam) :=
  match toolUseBlocks with
  | [] => ret toolResults
  | toolUse :: rest =>
      say (ConsoleLog EmptyString) ;;;
      say (ConsoleLog ("Using tool: " ++ tu_name toolUse)) ;;;
      result <- on_world (ToolExecutor.execute caps (tu_name toolUse) (tu_input toolUse)) ;;
      runTools rest
        (toolResults ++ [ {| tool_use_id := tu_id toolUse;
                             tr_content := JSON_stringify caps result |} ])%list
  end.

Definition handleResponse (response : Response) : M (State W) bool :=
  let contentBlocks := r_content response in
  scanned <- scanBlocks contentBlocks false [] ;;
  let hasText := fst scanned in
  let toolUseBlocks := snd scanned in
  if (0 <? length toolUseBlocks)%nat
  then
    effect (push {| role := assistant; content := Blocks contentBlocks |}) ;;;
    toolResults <- runTools toolUseBlocks [] ;;
    effect (push {| role := user; content := Blocks (map ToolResultBlock toolResults) |}) ;;;
    ret true
  else if hasText && stop_reason_is response end_turn
  then
    effect (push {| role := assistant; content := Blocks contentBlocks |}) ;;;
    ret false
  else ret (stop_reason_is response tool_use).

(** One iteration of the [while] loop of [processConversation]; the
    result is the new value of [continueLoop]. *)
(** The [try] block of the loop body. *)
Definition attempt : M (State W) bool :=
  fun s =>
    (response <- on_world (sendMessage caps (systemPrompt s) (messages s)) ;;
     say (SpinnerStop true None) ;;;
     handleResponse response) s.

(** The [catch] block: report, and leave the loop. *)
Definition report (error : js_error) (s : State W) : State W :=
  let w1 := emit caps (SpinnerStop false (Some "Error communicating with AI")) (world s) in
  with_world s (emit caps (ConsoleError ("Error: " ++ error_message error)) w1).

Definition round (s : State W) : bool * State W :=
  let s0 := with_world s (emit caps (SpinnerStart "Thinking...") (world s)) in
  match attempt s0 with
  | (Ok continueLoop, s') => (continueLoop, s')
  | (Throw error, s') => (false, report error s')
  end.

(** [processConversation]: the loop has no bound of its own; [fuel]
    bounds the number of rounds and [None] means it was not enough. *)
Fixpoint processConversation (fuel : nat) (s : State W) : option (State W) :=
  match fuel with
  | O => None
  | S fuel' =>
      let (continueLoop, s') := round s in
      if continueLoop then processConversation fuel' s' else Some s'
  end.

Definition chat (fuel : nat) (userMessage : string) (s : State W) : option (State W) :=
  processConversation fuel (push {| role := user; content := Plain userMessage |} s).

Definition getHistory (s : State W) : list ConversationMessage := messages s.

Definition clearHistory (s : State W) : State W :=
  {| world := world s; messages := []; systemPrompt := systemPrompt s |}.

Definition addContext (context : string) (s : State W) : State W :=
  push {| role := assistant;
          content := Plain "I understand the context. How can I help you?" |}
       (push {| role := user; content := Plain ("[Context] " ++ context) |} s).

(** ** Runs *)

(** The state after [n] rounds that all asked for another one. *)
Fixpoint completed_rounds (n : nat) (s : State W) : option (State W) :=
  match n with
  | O => Some s
  | S n' =>
      let (continueLoop, s') := round s in
      if continueLoop then completed_rounds n' s' else None
  end.

(** What the owner of a manager may call, and a sequence of such
    calls; [fuel] bounds the rounds of each [chat]. *)
Inductive command : Type :=
| Chat (userMessage : string)
| AddContext (context : string)
| ClearHistory.

Fixpoint session (fuel : nat) (commands : list command) (s : State W)
  : option (State W) :=
  match commands with
  | [] => Some s
  | Chat userMessage :: rest =>
      match chat fuel userMessage s with
      | Some s' => session fuel rest s'
      | None => None
      end
  | AddContext context :: rest => session fuel rest (addContext context s)
  | ClearHistory :: rest => session fuel rest (clearHistory s)
  end.

End WithCaps.
End ConversationManager.

(* ================================================================== *)
(** * Shapes of responses and histories *)
(* ================================================================== *)

Module History.

(** The tool-invocation requests of a content array, in order. *)
Fixpoint tool_uses (blocks : list ContentBlock) : list ToolUse :=
  match blocks with
  | [] => []
  | ToolUseBlock u :: rest => u :: tool_uses rest
  | _ :: rest => tool_uses rest
  end.

(** Whether a content array has a text item. *)
Fixpoint has_text (blocks : list ContentBlock) : bool :=
  match blocks with
  | [] => false
  | TextBlock _ :: _ => true
  | _ :: rest => has_text rest
  end.

(** The invocation ids a message asks for. *)
Definition requested_ids (m : ConversationMessage) : list string :=
  match content m with
  | Blocks l => map tu_id (tool_uses l)
  | Plain _ => []
  end.

(** [reply] is a user message made of tool results only, one per
    request of [request], in the same order and with the same ids. *)
Definition answers (reply request : ConversationMessage) : Prop :=
  role reply = user /\
  exists results,
    content reply = Blocks (map ToolResultBlock results) /\
    map tool_use_id results = requested_ids request.

(** A user message whose content is an array of blocks. *)
Definition bundle (m : ConversationMessage) : Prop :=
  role m = user /\ exists blocks, content m = Blocks blocks.

(** A message that neither asks for tools nor bundles results. *)
Definition ordinary (m : ConversationMessage) : Prop :=
  match content m with
  | Plain _ => True
  | Blocks l => role m = assistant /\ tool_uses l = []
  end.

(** Histories built by appending ordinary messages and
    request/answer pairs. *)
Inductive well_formed : list ConversationMessage -> Prop :=
| wf_empty : well_formed []
| wf_ordinary h m :
    well_formed h -> ordinary m -> well_formed (h ++ [m])
| wf_round h a u :
    well_formed h -> role a = assistant -> answers u a ->
    well_formed (h ++ [a; u]).

(** Every assistant message with requests is directly followed by the
    message that answers them. *)
Definition round_alternation (h : list ConversationMessage) : Prop :=
  forall i m,
    nth_error h i = Some m -> role m = assistant -> requested_ids m <> [] ->
    exists r, nth_error h (S i) = Some r /\ answers r m.

(** Every bundle of tool results directly follows the assistant
    message it answers. *)
Definition bundles_follow_requests (h : list ConversationMessage) : Prop :=
  forall i r,
    nth_error h i = Some r -> bundle r ->
    exists j m, i = S j /\ nth_error h j = Some m /\
                role m = assistant /\ answers r m.

End History.

(** Case-insensitive substring: some segment of [t] equals [q] up to the
    case of its letters. *)
Definition occurs_ignoring_case (q t : string) : Prop :=
  exists before segment after,
    t = before ++ segment ++ after /\
    Js.toLowerCase segment = Js.toLowerCase q.

(* ================================================================== *)
(** * A scripted environment *)
(* ================================================================== *)

(** An implementation of [Caps] for concrete runs: a store in memory,
    a user and a gateway that follow a script, a counter for a clock. *)
Module Scripted.

(** What the user does at the next prompt. *)
Inductive answer : Type :=
| Pick (v : value)
| PickMany (l : list value)
| Typed (s : string)
| Confirm (b : bool)
| Cancel.

(** The store: each feature directory with its story files, a file
    being its name without extension and what parsing it gives
    ([None] for a file that does not parse). *)
Record World := {
  disk : list (string * list (string * option Story));
  featureFiles : list Feature;
  written : list value;
  answers : list answer;
  replies : list (outcome Response);
  ticks : nat;
  terminal : list ui_event
}.

Definition ExitPromptError : js_error :=
  JsError "ExitPromptError" "User force closed the prompt".

Definition next_answer (w : World) : option answer * World :=
  match answers w with
  | [] => (None, w)
  | a :: rest =>
      (Some a,
       {| disk := disk w; featureFiles := featureFiles w; written := written w;
          answers := rest; replies := replies w; ticks := ticks w;
          terminal := terminal w |})
  end.

Definition prompt {A} (accept : answer -> option A) : M World A :=
  fun w =>
    match next_answer w with
    | (Some a, w') =>
        match accept a with
        | Some x => (Ok x, w')
        | None => (Throw ExitPromptError, w')
        end
    | (None, w') => (Throw ExitPromptError, w')
    end.

Definition write (v : value) : M World unit :=
  fun w =>
    (Ok tt,
     {| disk := disk w; featureFiles := featureFiles w;
        written := (written w ++ [v])%list;
        answers := answers w; replies := replies w; ticks := ticks w;
        terminal := terminal w |}).

Fixpoint find {A} (k : string) (l : list (string * A)) : option A :=
  match l with
  | [] => None
  | (k', a) :: rest => if String.eqb k' k then Some a else find k rest
  end.

Fixpoint parsed (files : list (string * option Story)) : list Story :=
  match files with
  | [] => []
  | (_, Some s) :: rest => s :: parsed rest
  | (_, None) :: rest => parsed rest
  end.

Definition path_error : js_error :=
  TypeError "The path argument must be of type string".

(** [listStories(featureId)]: one directory when [featureId] is truthy,
    every feature directory otherwise. *)
Definition listStories (featureId : value) : M World (list Story) :=
  fun w =>
    if Js.truthy featureId
    then match featureId with
         | VStr f =>
             match find f (disk w) with
             | Some files => (Ok (parsed files), w)
             | None => (Ok [], w)
             end
         | _ => (Throw path_error, w)
         end
    else (Ok (flat_map (fun d => parsed (snd d)) (disk w)), w).

Definition getStory (featureId storyId : value) : M World (option Story) :=
  fun w =>
    match featureId with
    | VStr f =>
        match find f (disk w) with
        | Some files =>
            match find (Js.to_string storyId) files with
            | Some (Some s) => (Ok (Some s), w)
            | Some None => (Throw (JsError "ZodError" "Invalid story file"), w)
            | None => (Ok None, w)
            end
        | None => (Ok None, w)
        end
    | _ => (Throw path_error, w)
    end.

Definition reply (w : World) : outcome Response * World :=
  match replies w with
  | [] => (Throw (JsError "APIConnectionError" "Connection error."), w)
  | r :: rest =>
      (r,
       {| disk := disk w; featureFiles := featureFiles w; written := written w;
          answers := answers w; replies := rest; ticks := ticks w;
          terminal := terminal w |})
  end.

Definition tick (w : World) : string * World :=
  ("T" ++ Js.string_of_nat (ticks w),
   {| disk := disk w; featureFiles := featureFiles w; written := written w;
      answers := answers w; replies := replies w; ticks := S (ticks w);
      terminal := terminal w |}).

Definition print (ev : ui_event) (w : World) : World :=
  {| disk := disk w; featureFiles := featureFiles w; written := written w;
     answers := answers w; replies := replies w; ticks := ticks w;
     terminal := (terminal w ++ [ev])%list |}.

(** A serializer for the run: the envelope without its payload. *)
Definition stringify (r : ToolResult) : string :=
  "{" ++ quoted "success" ++ ":" ++ (if success r then "true" else "false")
      ++ match error r with
         | Some e => "," ++ quoted "error" ++ ":" ++ quoted e
         | None => EmptyString
         end
      ++ "}".

Definition caps : Caps World :=
  {| storage_createStory := write;
     storage_getStory := getStory;
     storage_listStories := listStories;
     storage_createFeature := write;
     storage_listFeatures := fun w => (Ok (featureFiles w), w);
     askSelect := fun _ _ =>
       prompt (fun a => match a with Pick v => Some v | _ => None end);
     askMultiSelect := fun _ _ =>
       prompt (fun a => match a with PickMany l => Some l | _ => None end);
     askQuestion := fun _ =>
       prompt (fun a => match a with Typed s => Some s | _ => None end);
     askConfirm := fun _ _ =>
       prompt (fun a => match a with Confirm b => Some b | _ => None end);
     emit := print;
     now := tick;
     sendMessage := fun _ _ => reply;
     JSON_stringify := stringify |}.

Definition world0 : World :=
  {| disk := []; featureFiles := []; written := []; answers := [];
     replies := []; ticks := 0; terminal := [] |}.

Definition with_answers (l : list answer) (w : World) : World :=
  {| disk := disk w; featureFiles := featureFiles w; written := written w;
     answers := l; replies := replies w; ticks := ticks w;
     terminal := terminal w |}.

Definition with_replies (l : list (outcome Response)) (w : World) : World :=
  {| disk := disk w; featureFiles := featureFiles w; written := written w;
     answers := answers w; replies := l; ticks := ticks w;
     terminal := terminal w |}.

Definition with_disk (d : list (string * list (string * option Story))) (w : World)
  : World :=
  {| disk := d; featureFiles := featureFiles w; written := written w;
     answers := answers w; replies := replies w; ticks := ticks w;
     terminal := terminal w |}.

End Scripted.

(* ================================================================== *)
(** * Sample data *)
(* ================================================================== *)

Module Samples.

Definition criterion (t : string) : AcceptanceCriterion :=
  {| text := t; completed := false |}.

(** No dependency, a benefit, four acceptance criteria, one open
    question. *)
Definition login : Story :=
  {| id := "login"; title := "User Login"; type := user_story; status := draft;
     priority := medium; feature := Some "auth"; persona := None;
     asA := Some "registered user"; iWant := Some "to sign in";
     soThat := Some "I can see my data";
     acceptanceCriteria :=
       [ criterion "Given valid credentials the user is signed in";
         criterion "Given a wrong password an error is shown";
         criterion "Five failures lock the account";
         criterion "A session lasts 30 minutes" ];
     openQuestions := ["Do we support SSO?"];
     edgeCases := []; dependencies := []; relatedStories := [];
     estimate := None; tags := ["Security"];
     createdAt := "2024-01-01T00:00:00.000Z";
     updatedAt := "2024-01-01T00:00:00.000Z" |}.

(** The same story with every question settled. *)
Definition settled : Story :=
  {| id := "login-settled"; title := title login; type := type login;
     status := status login; priority := priority login;
     feature := feature login; persona := persona login;
     asA := asA login; iWant := iWant login; soThat := soThat login;
     acceptanceCriteria := acceptanceCriteria login;
     openQuestions := [];
     edgeCases := edgeCases login; dependencies := dependencies login;
     relatedStories := relatedStories login; estimate := estimate login;
     tags := tags login; createdAt := createdAt login;
     updatedAt := updatedAt login |}.

Definition invoice : Story :=
  {| id := "invoice"; title := "Download invoice"; type := user_story;
     status := ready; priority := high; feature := Some "billing";
     persona := None; asA := Some "customer"; iWant := None; soThat := None;
     acceptanceCriteria := [criterion "The PDF opens after login"];
     openQuestions := []; edgeCases := []; dependencies := ["login"];
     relatedStories := []; estimate := None; tags := [];
     createdAt := "2024-01-02T00:00:00.000Z";
     updatedAt := "2024-01-02T00:00:00.000Z" |}.

(** Two feature directories; one file of the first does not parse. *)
Definition store : Scripted.World :=
  Scripted.with_disk
    [ ("auth", [("login", Some login); ("notes", None); ("login-settled", Some settled)]);
      ("billing", [("invoice", Some invoice)]) ]
    Scripted.world0.

Definition question : list (string * value) :=
  [ ("question", VStr "Who is the user?");
    ("options", VArr [ VObj [("label", VStr "Admin"); ("value", VStr "admin")];
                       VObj [("label", VStr "Guest"); ("value", VStr "guest")] ]) ].

Definition draft : list (string * value) :=
  [ ("title", VStr "User Login"); ("asA", VStr "registered user");
    ("iWant", VStr "to sign in"); ("soThat", VStr "I can see my data");
    ("acceptanceCriteria", VArr [VStr "Given valid credentials the user is signed in"]) ].

Definition request (i n : string) (inp : list (string * value)) : ContentBlock :=
  ToolUseBlock {| tu_id := i; tu_name := n; tu_input := inp |}.

Definition says (t : string) (r : StopReason) : Response :=
  {| r_content := [TextBlock t]; stop_reason := Some r |}.

Definition asks (blocks : list ContentBlock) : Response :=
  {| r_content := blocks; stop_reason := Some tool_use |}.

(** The gateway asks a question, presents a draft, creates the story,
    then answers in text; the user picks an option and approves. *)
Definition creation : Scripted.World :=
  Scripted.with_replies
    [ Ok (asks [TextBlock "Let me ask."; request "toolu_1" "ask_user_question" question]);
      Ok (asks [request "toolu_2" "present_draft" draft]);
      Ok (asks [request "toolu_3" "create_story" (("id", VStr "login") :: draft)]);
      Ok (says "The story is saved." end_turn) ]
    (Scripted.with_answers [Scripted.Pick (VStr "admin"); Scripted.Confirm true]
       Scripted.world0).

(** The gateway fails on the second round. *)
Definition outage : Scripted.World :=
  Scripted.with_replies
    [ Ok (asks [request "toolu_1" "list_stories" []]);
      Throw (JsError "APIConnectionError" "Connection error.");
      Ok (says "Here they are." end_turn) ]
    store.

(** The gateway stops at the token limit, then would say more. *)
Definition truncated : Scripted.World :=
  Scripted.with_replies
    [ Ok (says "The story so far" max_tokens); Ok (says "and the rest." end_turn) ]
    Scripted.world0.

(** The gateway ends its turn with an empty content array. *)
Definition silent : Scripted.World :=
  Scripted.with_replies
    [ Ok {| r_content := []; stop_reason := Some end_turn |} ]
    Scripted.world0.


End Samples.

(* ================================================================== *)
(** * What a response shows *)
(* ================================================================== *)

Module Display.

(** The text items of a content array, in order. *)
Fixpoint texts (blocks : list ContentBlock) : list string :=
  match blocks with
  | [] => []
  | TextBlock t :: rest => t :: texts rest
  | _ :: rest => texts rest
  end.

(** What the first loop of [handleResponse] prints for one text item:
    [console.log(); displayAIResponse(block.text)]. *)
Definition show_text {W} (caps : Caps W) (w : W) (t : string) : W :=
  emit caps (AIResponse t) (emit caps (ConsoleLog EmptyString) w).

End Display.

(* ================================================================== *)
(** * More scripted environments *)
(* ================================================================== *)

Module Doubles.

(** A gateway that asks for the feature list whatever it is sent. *)
Definition insistent : Caps Scripted.World :=
  {| storage_createStory := storage_createStory Scripted.caps;
     storage_getStory := storage_getStory Scripted.caps;
     storage_listStories := storage_listStories Scripted.caps;
     storage_createFeature := storage_createFeature Scripted.caps;
     storage_listFeatures := storage_listFeatures Scripted.caps;
     askSelect := askSelect Scripted.caps;
     askMultiSelect := askMultiSelect Scripted.caps;
     askQuestion := askQuestion Scripted.caps;
     askConfirm := askConfirm Scripted.caps;
     emit := emit Scripted.caps;
     now := now Scripted.caps;
     sendMessage := fun _ _ w =>
       (Ok (Samples.asks [Samples.request "toolu_n" "list_features" []]), w);
     JSON_stringify := JSON_stringify Scripted.caps |}.

Definition auth : Feature :=
  {| f_id := "auth"; f_title := "Authentication"; f_description := None;
     f_status := draft; f_priority := high; f_successCriteria := [];
     f_stories := []; f_tags := [];
     f_createdAt := "2024-01-01T00:00:00.000Z";
     f_updatedAt := "2024-01-01T00:00:00.000Z" |}.

Definition billing : Feature :=
  {| f_id := "billing"; f_title := "Billing"; f_description := None;
     f_status := ready; f_priority := medium; f_successCriteria := [];
     f_stories := []; f_tags := [];
     f_createdAt := "2024-01-02T00:00:00.000Z";
     f_updatedAt := "2024-01-02T00:00:00.000Z" |}.

(** The sample store with its two feature files. *)
Definition catalogue : Scripted.World :=
  {| Scripted.disk := Scripted.disk Samples.store;
     Scripted.featureFiles := [auth; billing];
     Scripted.written := [];
     Scripted.answers := [];
     Scripted.replies := [];
     Scripted.ticks := 0;
     Scripted.terminal := [] |}.

(** The gateway asks for a tool and labels the turn [end_turn]. *)
Definition mislabelled : Scripted.World :=
  Scripted.with_replies
    [ Ok {| r_content := [Samples.request "toolu_1" "list_features" []];
            stop_reason := Some end_turn |} ]
    Scripted.world0.

(** The gateway announces a tool and sends none, then ends its turn. *)
Definition hollow : Scripted.World :=
  Scripted.with_replies
    [ Ok {| r_content := [TextBlock "One moment."]; stop_reason := Some tool_use |};
      Ok (Samples.says "Done." end_turn) ]
    Scripted.world0.

End Doubles.

(* ================================================================== *)
(** * The tool schema ([toolDefinitions]) *)
(* ================================================================== *)

Module Schema.



End Schema.

(* ================================================================== *)
(** * Configuration ([src/config/index.ts], [src/config/settings.ts]) *)
(* ================================================================== *)

(** An absolute, normalized path is the list of its segments below the
    root; the root is the empty list.  On such paths [path.dirname]
    drops the last segment (and keeps the root) and [path.join] adds
    one. *)
Module Path.

Definition path : Type := list string.

Definition dirname (p : path) : path := removelast p.

Definition join (p : path) (segment : string) : path := (p ++ [segment])%list.

Definition eqb (a b : path) : bool :=
  if list_eq_dec string_dec a b then true else false.

(** [d] is [p] or a directory above it. *)
Definition above (d p : path) : Prop := exists rest, p = (d ++ rest)%list.

End Path.

Module Config.

Definition CONFIG_FILE : string := "one-p.yaml".

Section Snapshot.
(** [fs.existsSync] on the disk as it is during the call. *)
Variable existsSync : Path.path -> bool.

(** The [while] loop of [findProjectRoot]; [None] when [fuel] turns
    were not enough, [Some r] when the function returns [r]. *)
Fixpoint findProjectRoot_loop (fuel : nat) (currentDir : Path.path)
  : option (option Path.path) :=
  match fuel with
  | O => None
  | S fuel' =>
      if negb (Path.eqb currentDir (Path.dirname currentDir))
      then
        if existsSync (Path.join currentDir CONFIG_FILE)
        then Some (Some currentDir)
        else findProjectRoot_loop fuel' (Path.dirname currentDir)
      else Some None
  end.

(** Each turn drops a segment, so one turn per segment and one more
    are enough. *)
Definition findProjectRoot (startDir : Path.path) : option (option Path.path) :=
  findProjectRoot_loop (S (length startDir)) startDir.

End Snapshot.

Record ModelInfo := {
  m_id : string;
  m_name : string;
  m_description : string
}.

Definition AVAILABLE_MODELS : list ModelInfo :=
  [ {| m_id := "claude-opus-4-5-20251101"; m_name := "Claude Opus 4.5";
       m_description := "Most capable model, best for complex analysis" |};
    {| m_id := "claude-sonnet-4-20250514"; m_name := "Claude Sonnet 4";
       m_description := "Balanced performance and speed" |};
    {| m_id := "claude-3-5-sonnet-20241022"; m_name := "Claude 3.5 Sonnet";
       m_description := "Fast and efficient for most tasks" |};
    {| m_id := "claude-3-5-haiku-20241022"; m_name := "Claude 3.5 Haiku";
       m_description := "Fastest, good for simple tasks" |} ].

(** What [SettingsSchema.parse] returns. *)
Record Settings := {
  s_apiKey : string;
  s_model : string;
  s_createdAt : string;
  s_updatedAt : string
}.

(** [s || null] on a string that may be absent. *)
Definition non_empty (s : option string) : option string :=
  match s with
  | Some k => if String.eqb k EmptyString then None else Some k
  | None => None
  end.

(** [getApiKey], given [process.env.ANTHROPIC_API_KEY] and what
    [loadSettings()] returns. *)
Definition getApiKey (envKey : option string) (settings : option Settings)
  : option string :=
  match non_empty envKey with
  | Some k => Some k
  | None => non_empty (option_map s_apiKey settings)
  end.

(** [getModel], given what [loadSettings()] returns. *)
Definition getModel (settings : option Settings) : string :=
  match non_empty (option_map s_model settings) with
  | Some m => m
  | None => "claude-sonnet-4-20250514"
  end.

Definition isValidApiKeyFormat (key : string) : bool :=
  String.prefix "sk-ant-" key && (20 <? String.length key)%nat.

Definition getModelInfo (modelId : string) : option ModelInfo :=
  find (fun m => String.eqb (m_id m) modelId) AVAILABLE_MODELS.

End Config.

(* ================================================================== *)
(** * The gateway client (the credential-aware [getAnthropicClient]) *)
(* ================================================================== *)

Module Client.

(** A constructed SDK client: the key it was built with, and its
    identity as the number of clients built before it. *)
Record Anthropic := {
  apiKey : string;
  serial : nat
}.

(** The two module variables, and the clients built so far. *)
Record Cache := {
  client : option Anthropic;
  currentApiKey : option string;
  built : nat
}.

Definition initial : Cache :=
  {| client := None; currentApiKey := None; built := 0 |}.

Definition newline : string := String (ascii_of_nat 10) EmptyString.

Definition noKey : js_error :=
  JsError "Error"
    ("No API key configured." ++ newline ++ "Run " ++ quoted "one-p config"
       ++ " to set up your API key, or set ANTHROPIC_API_KEY environment variable.").

(** [currentApiKey !== apiKey] *)
Definition differs (current : option string) (key : string) : bool :=
  match current with
  | Some k => negb (String.eqb k key)
  | None => true
  end.

(** [getAnthropicClient], given what [getApiKey()] returns. *)
Definition getAnthropicClient (key : option string) (c : Cache)
  : (js_error + Anthropic) * Cache :=
  match Config.non_empty key with
  | None => (inl noKey, c)
  | Some k =>
      match client c with
      | Some existing =>
          if differs (currentApiKey c) k
          then let fresh := {| apiKey := k; serial := built c |} in
               (inr fresh,
                {| client := Some fresh; currentApiKey := Some k; built := S (built c) |})
          else (inr existing, c)
      | None =>
          let fresh := {| apiKey := k; serial := built c |} in
          (inr fresh,
           {| client := Some fresh; currentApiKey := Some k; built := S (built c) |})
      end
  end.

(** The cached client, if any, was built with the remembered key. *)
Definition coherent (c : Cache) : Prop :=
  match client c with
  | Some existing => currentApiKey c = Some (apiKey existing)
  | None => True
  end.

(** A series of calls, each with the key current at that time. *)
Fixpoint calls (keys : list (option string)) (c : Cache) : Cache :=
  match keys with
  | [] => c
  | key :: rest => calls rest (snd (getAnthropicClient key c))
  end.

End Client.

(* ================================================================== *)
(** * StorageManager on the file system ([src/storage/index.ts]) *)
(* ================================================================== *)

(** The reading methods of [StorageManager] over the disk as it is
    during the call: each [fs] function is a function of the path that
    returns or throws.  Feature and story ids are single path
    segments. *)
Module Disk.

(** [name.endsWith(suffix)] *)
Fixpoint endsWith (name suffix : string) : bool :=
  if String.eqb name suffix then true
  else match name with
       | EmptyString => false
       | String _ rest => endsWith rest suffix
       end.

Section Snapshot.
Variable projectPath : Path.path.
Variable existsSync : Path.path -> bool.
Variable readdirSync : Path.path -> js_error + list string.
(** [fs.statSync(p).isDirectory()] *)
Variable isDirectory : Path.path -> js_error + bool.
Variable readFileSync : Path.path -> js_error + string.
Variable markdownToStory : string -> js_error + Story.

Definition getFeaturesDir : Path.path := Path.join projectPath "features".

Definition getFeatureDir (featureId : string) : Path.path :=
  Path.join getFeaturesDir featureId.

Definition getStoriesDir (featureId : string) : Path.path :=
  Path.join (getFeatureDir featureId) "stories".

Definition getStoryPath (featureId storyId : string) : Path.path :=
  Path.join (getStoriesDir featureId) (storyId ++ ".md").

Definition getStory (featureId storyId : string) : js_error + option Story :=
  let storyPath := getStoryPath featureId storyId in
  if negb (existsSync storyPath) then inr None
  else match readFileSync storyPath with
       | inl e => inl e
       | inr content =>
           match markdownToStory content with
           | inl e => inl e
           | inr story => inr (Some story)
           end
       end.

(** [names.filter((f) => fs.statSync(path.join(featuresDir, f)).isDirectory())] *)
Fixpoint directories (names : list string) : js_error + list string :=
  match names with
  | [] => inr []
  | f :: rest =>
      match isDirectory (Path.join getFeaturesDir f) with
      | inl e => inl e
      | inr keep =>
          match directories rest with
          | inl e => inl e
          | inr dirs => inr (if keep then f :: dirs else dirs)
          end
      end
  end.

(** The inner loop of [listStories]: a file that does not parse is
    skipped, a file that cannot be read ends the listing. *)
Fixpoint readStories (storiesDir : Path.path) (storyFiles : list string)
  (stories : list Story) : js_error + list Story :=
  match storyFiles with
  | [] => inr stories
  | storyFile :: rest =>
      match readFileSync (Path.join storiesDir storyFile) with
      | inl e => inl e
      | inr content =>
          match markdownToStory content with
          | inr story => readStories storiesDir rest (stories ++ [story])%list
          | inl _ => readStories storiesDir rest stories
          end
      end
  end.

(** The outer loop of [listStories]. *)
Fixpoint readFeatures (featureDirs : list string) (stories : list Story)
  : js_error + list Story :=
  match featureDirs with
  | [] => inr stories
  | fDir :: rest =>
      let storiesDir := getStoriesDir fDir in
      if negb (existsSync storiesDir) then readFeatures rest stories
      else match readdirSync storiesDir with
           | inl e => inl e
           | inr names =>
               match readStories storiesDir
                       (filter (fun f => endsWith f ".md") names) stories with
               | inl e => inl e
               | inr stories' => readFeatures rest stories'
               end
           end
  end.

Definition listStories (featureId : option string) : js_error + list Story :=
  if negb (existsSync getFeaturesDir) then inr []
  else
    match (match Config.non_empty featureId with
           | Some f => inr [f]
           | None =>
               match readdirSync getFeaturesDir with
               | inl e => inl e
               | inr names => directories names
               end
           end) with
    | inl e => inl e
    | inr featureDirs => readFeatures featureDirs []
    end.

End Snapshot.

(** A disk for examples: a project with two feature directories and a
    plain file beside them; the first feature has a story that parses,
    one that does not, and a text file; the second has no stories
    directory. *)
Definition demo_exists (p : Path.path) : bool :=
  existsb (Path.eqb p)
    [ ["shop"; "features"];
      ["shop"; "features"; "auth"; "stories"];
      ["shop"; "features"; "auth"; "stories"; "login.md"];
      ["shop"; "features"; "auth"; "stories"; "broken.md"];
      ["shop"; "features"; "auth"; "stories"; "notes.txt"] ].



Definition demo_cat (p : Path.path) : string :=
  if Path.eqb p ["shop"; "features"; "auth"; "stories"; "login.md"] then "login"
  else "???".

Definition demo_parse (content : string) : js_error + Story :=
  if String.eqb content "login" then inr Samples.login
  else inl (JsError "ZodError" "Required").

End Disk.

(* ================================================================== *)
(** * The executor never throws *)
(* ================================================================== *)

Section ExecutorFacts.
Context {W : Type} (caps : Caps W).

Lemma try_catch_ok {A} (body : M W A) handler w a w' :
  body w = (Ok a, w') -> try_catch body handler w = (Ok a, w').
Proof. unfold try_catch. intros ->. reflexivity. Qed.


(** A handler closed by the shared [catch] clause returns normally,
    whatever its [try] block does. *)
Lemma caught_returns prefix (body : M W ToolResult) w :
  returns (try_catch body (ToolExecutor.caught prefix)) w.
Proof.
  unfold returns, try_catch.
  destruct (body w) as [[r | e] w'].
  - exists r, w'. reflexivity.
  - eexists _, w'. reflexivity.
Qed.

Lemma execute_returns toolName input w :
  returns (ToolExecutor.execute caps toolName input) w.
Proof.
  unfold ToolExecutor.execute.
  repeat match goal with
         | |- context [if ?b then _ else _] => destruct b
         end;
    try apply caught_returns.
  eexists _, w. reflexivity.
Qed.

Lemma try_catch_converts prefix (body : M W ToolResult) :
  converts prefix body (try_catch body (ToolExecutor.caught prefix)).
Proof.
  intros w. unfold try_catch.
  destruct (body w) as [[r | e] w']; reflexivity.
Qed.

Lemma execute_unregistered toolName input :
  ~ In toolName ToolExecutor.registered ->
  ToolExecutor.execute caps toolName input
  = ret (failed ("Unknown tool: " ++ toolName)).
Proof.
  intros Hnot. unfold ToolExecutor.execute.
  repeat match goal with
         | |- context [String.eqb toolName ?s] =>
             destruct (String.eqb_spec toolName s) as [-> | _];
             [exfalso; apply Hnot; simpl; tauto | ]
         end.
  reflexivity.
Qed.

End ExecutorFacts.

(** C10. For every environment, tool name, input object and world,
    [execute] returns a [ToolResult] and does not throw; each of the nine
    handlers returns what its [try] block returns and turns an error
    thrown inside it (a cancelled prompt included) into
    [{success: false, error: <prefix>: <message>}]. *)
Theorem execute_never_throws :
  forall (W : Type) (caps : Caps W),
    (forall toolName input w,
        exists result w',
          ToolExecutor.execute caps toolName input w = (Ok result, w')) /\
    (forall input,
        converts "Failed to create story"
          (ToolExecutor.createStory_body caps input) (ToolExecutor.createStory caps input) /\
        converts "Failed to update story"
          (ToolExecutor.updateStory_body caps input) (ToolExecutor.updateStory caps input) /\
        converts "Failed to list stories"
          (ToolExecutor.listStories_body caps input) (ToolExecutor.listStories caps input) /\
        converts "Failed to create feature"
          (ToolExecutor.createFeature_body caps input) (ToolExecutor.createFeature caps input) /\
        converts "Failed to list features"
          (ToolExecutor.listFeatures_body caps) (ToolExecutor.listFeatures caps) /\
        converts "Failed to search stories"
          (ToolExecutor.searchStories_body caps input) (ToolExecutor.searchStories caps input) /\
        converts "Failed to get user input"
          (ToolExecutor.askUserQuestion_body caps input)
          (ToolExecutor.askUserQuestion caps input) /\
        converts "Failed to present draft"
          (ToolExecutor.presentDraft_body caps input) (ToolExecutor.presentDraft caps input) /\
        converts "Failed to analyze story"
          (ToolExecutor.analyzeStoryQuality_body caps input)
          (ToolExecutor.analyzeStoryQuality caps input)).
Proof.
  intros W caps. split.
  - intros toolName input w. apply execute_returns.
  - intros input. repeat split; apply try_catch_converts.
Qed.

(** C7. A tool name outside the nine registered ones is answered with
    [{success: false, error: "Unknown tool: <name>"}], for every input
    object, without throwing and without touching the world. *)
Theorem execute_unknown_tool :
  forall (W : Type) (caps : Caps W) toolName input w,
    ~ In toolName ToolExecutor.registered ->
    ToolExecutor.execute caps toolName input w
    = (Ok (failed ("Unknown tool: " ++ toolName)), w).
Proof.
  intros W caps toolName input w Hnot.
  rewrite (execute_unregistered caps toolName input Hnot). reflexivity.
Qed.

Lemma execute_unknown_tool_witness :
  ~ In "not_a_real_tool" ToolExecutor.registered /\
  ToolExecutor.execute Scripted.caps "not_a_real_tool" [] Scripted.world0
  = (Ok {| success := false; data := None;
           error := Some "Unknown tool: not_a_real_tool";
           requiresUserInput := None; userInput := None |},
     Scripted.world0).
Proof.
  assert (H : ~ In "not_a_real_tool" ToolExecutor.registered).
  { simpl. intros H. repeat (destruct H as [H | H]; [discriminate H | ]). exact H. }
  split; [exact H | ].
  exact (execute_unknown_tool Scripted.World Scripted.caps
           "not_a_real_tool" [] Scripted.world0 H).
Defined.

(* ================================================================== *)
(** * Cancelled prompts *)
(* ================================================================== *)

Section Cancellation.
Context {W : Type} (caps : Caps W).



End Cancellation.




(* ================================================================== *)
(** * The INVEST heuristic *)
(* ================================================================== *)

Section Invest.
Import ToolExecutor.

Lemma in_push_if cond msg l m :
  In m (push_if cond msg l) <-> In m l \/ (cond = true /\ m = msg).
Proof.
  unfold push_if. destruct cond.
  - rewrite in_app_iff. simpl. intuition congruence.
  - intuition congruence.
Qed.

(** The messages [generateSuggestions] can push, one for each of five
    dimensions. *)
Lemma suggestion_iff story m :
  let a := investAnalysis story in
  In m (suggestions a) <->
  ((score (independent a) < 7)%Z /\
     m = "Consider reducing dependencies on other stories") \/
  ((score (valuable a) < 7)%Z /\
     m = "Clarify the business value with a stronger " ++ quoted "so that" ++ " clause") \/
  ((score (estimable a) < 7)%Z /\ m = "Add more specific acceptance criteria") \/
  ((score (small a) < 7)%Z /\
     m = "Consider breaking this story into smaller pieces") \/
  ((score (testable a) < 7)%Z /\ m = "Add measurable acceptance criteria").
Proof.
  cbv zeta. unfold investAnalysis. cbn [suggestions independent valuable estimable
                                         small testable].
  unfold generateSuggestions.
  repeat rewrite in_push_if. repeat rewrite Z.ltb_lt.
  cbn [suggestions initialAnalysis In]. tauto.
Qed.


Lemma overallScore_eq story :
  overallScore (investAnalysis story)
  = round_div (score (independent (investAnalysis story))
               + score (negotiable (investAnalysis story))
               + score (valuable (investAnalysis story))
               + score (estimable (investAnalysis story))
               + score (small (investAnalysis story))
               + score (testable (investAnalysis story))) 6.
Proof. reflexivity. Qed.


End Invest.



(** C5, on the code.  A story without open question scores 6 on
    Negotiable, below 7, and gets no suggestion at all: the suggestions
    come from the other five dimensions only. *)
Theorem negotiable_gets_no_suggestion :
  let a := ToolExecutor.investAnalysis Samples.settled in
  score (negotiable a) = 6%Z /\
  suggestions a = [] /\
  forall story m,
    In m (suggestions (ToolExecutor.investAnalysis story)) ->
    In m [ "Consider reducing dependencies on other stories";
           "Clarify the business value with a stronger " ++ quoted "so that" ++ " clause";
           "Add more specific acceptance criteria";
           "Consider breaking this story into smaller pieces";
           "Add measurable acceptance criteria" ].
Proof.
  cbv zeta. split; [reflexivity | ]. split; [reflexivity | ].
  intros story m Hin. apply suggestion_iff in Hin. cbv zeta in Hin.
  simpl. intuition auto.
Qed.

(* ================================================================== *)
(** * Story search *)
(* ================================================================== *)

Section StorySearch.

Lemma prefix_iff needle : forall hay,
  String.prefix needle hay = true <-> exists after, hay = needle ++ after.
Proof.
  induction needle as [| c needle IH]; intros hay.
  - split; [intros _; exists hay; reflexivity | intros _; destruct hay; reflexivity].
  - destruct hay as [| d hay]; simpl.
    + split; [discriminate | intros [after H]; discriminate H].
    + destruct (ascii_dec c d) as [-> | Hne].
      * rewrite IH. split; intros [after H]; exists after.
        -- rewrite H. reflexivity.
        -- injection H as H. exact H.
      * split; [discriminate | ].
        intros [after H]. injection H as Hc _. congruence.
Qed.

Lemma includes_iff needle : forall hay,
  Js.includes hay needle = true <->
  exists before after, hay = before ++ needle ++ after.
Proof.
  induction hay as [| c hay IH].
  - cbn [Js.includes]. destruct (String.prefix needle EmptyString) eqn:Hp.
    + split; [intros _ | reflexivity].
      apply prefix_iff in Hp. destruct Hp as [after H].
      exists EmptyString, after. exact H.
    + split; [discriminate | ].
      intros [before [after H]].
      destruct before; [ | discriminate H].
      assert (String.prefix needle EmptyString = true) as Hq
          by (apply prefix_iff; exists after; exact H).
      congruence.
  - cbn [Js.includes]. destruct (String.prefix needle (String c hay)) eqn:Hp.
    + split; [intros _ | reflexivity].
      apply prefix_iff in Hp. destruct Hp as [after H].
      exists EmptyString, after. exact H.
    + rewrite IH. split.
      * intros [before [after H]]. exists (String c before), after.
        rewrite H. reflexivity.
      * intros [before [after H]]. destruct before as [| d before].
        -- assert (String.prefix needle (String c hay) = true) as Hq
               by (apply prefix_iff; exists after; exact H).
           congruence.
        -- injection H as _ H. exists before, after. exact H.
Qed.




Context {W : Type} (caps : Caps W).

Lemma searchStories_filter q w all w' :
  storage_listStories caps VUndefined w = (Ok all, w') ->
  StorageManager.searchStories caps (VStr q) w
  = (Ok (filter (fun story =>
                   Js.includes (StorageManager.searchText story) (Js.toLowerCase q))
                all), w').
Proof.
  intros Hlist. unfold StorageManager.searchStories, bind.
  rewrite Hlist. reflexivity.
Qed.

End StorySearch.



(** The three sample stories live in two features; all contain "login"
    in some case, and only one is about invoices. *)
Example search_across_features :
  StorageManager.searchStories Scripted.caps (VStr "LOGIN") Samples.store
  = (Ok [Samples.login; Samples.settled; Samples.invoice], Samples.store) /\
  StorageManager.searchStories Scripted.caps (VStr "Invoice") Samples.store
  = (Ok [Samples.invoice], Samples.store).
Proof. split; reflexivity. Qed.

(* ================================================================== *)
(** * The orchestration loop *)
(* ================================================================== *)

Section Loop.
Import ConversationManager History.
Context {W : Type} (caps : Caps W).

Lemma scanBlocks_spec blocks : forall hasText toolUseBlocks s,
  exists w',
    scanBlocks caps blocks hasText toolUseBlocks s
    = (Ok (hasText || has_text blocks, (toolUseBlocks ++ tool_uses blocks)%list),
       with_world s w').
Proof.
  induction blocks as [| b blocks IH]; intros hasText toolUseBlocks s.
  - exists (world s). simpl. rewrite orb_false_r, app_nil_r.
    destruct s; reflexivity.
  - destruct b as [t | u | r | ty]; cbn [scanBlocks has_text tool_uses].
    + unfold bind, say, on_world, effect.
      cbn [world with_world messages systemPrompt].
      destruct (IH true toolUseBlocks
                  (with_world s
                     (emit caps (AIResponse t)
                        (emit caps (ConsoleLog EmptyString) (world s)))))
        as [w' Hw'].
      exists w'. unfold with_world in *. cbn [world messages systemPrompt] in *.
      rewrite Hw', orb_true_r. reflexivity.
    + destruct (IH hasText (toolUseBlocks ++ [u])%list s) as [w' Hw'].
      exists w'. rewrite Hw', <- app_assoc. reflexivity.
    + apply IH.
    + apply IH.
Qed.

Lemma runTools_spec toolUseBlocks : forall toolResults s,
  exists results w',
    runTools caps toolUseBlocks toolResults s
    = (Ok (toolResults ++ results)%list, with_world s w') /\
    map tool_use_id results = map tu_id toolUseBlocks.
Proof.
  induction toolUseBlocks as [| u rest IH]; intros toolResults s.
  - exists [], (world s). split; [ | reflexivity].
    simpl. rewrite app_nil_r. destruct s; reflexivity.
  - cbn [runTools]. unfold bind, say, on_world, effect.
    cbn [world with_world messages systemPrompt].
    destruct (execute_returns caps (tu_name u) (tu_input u)
                (emit caps (ConsoleLog ("Using tool: " ++ tu_name u))
                   (emit caps (ConsoleLog EmptyString) (world s))))
      as [result [w1 Hexec]].
    rewrite Hexec.
    destruct (IH (toolResults
                    ++ [ {| tool_use_id := tu_id u;
                            tr_content := JSON_stringify caps result |} ])%list
                (with_world s w1)) as [results [w' [Hrun Hids]]].
    exists ({| tool_use_id := tu_id u; tr_content := JSON_stringify caps result |}
              :: results), w'.
    split.
    + unfold with_world in *. cbn [world messages systemPrompt] in *.
      rewrite Hrun, <- app_assoc. reflexivity.
    + cbn [map tool_use_id]. rewrite Hids. reflexivity.
Qed.

Lemma handleResponse_tools response s :
  tool_uses (r_content response) <> [] ->
  exists results s',
    handleResponse caps response s = (Ok true, s') /\
    messages s'
    = (messages s
         ++ [ {| role := assistant; content := Blocks (r_content response) |};
              {| role := user; content := Blocks (map ToolResultBlock results) |} ])%list /\
    map tool_use_id results = map tu_id (tool_uses (r_content response)) /\
    systemPrompt s' = systemPrompt s.
Proof.
  intros Hsome. unfold handleResponse, bind at 1.
  destruct (scanBlocks_spec (r_content response) false [] s) as [w1 Hscan].
  rewrite Hscan. cbn [fst snd app].
  destruct (tool_uses (r_content response)) as [| u uses] eqn:Huses;
    [contradiction | ].
  cbn [length Nat.ltb Nat.leb].
  unfold bind, effect.
  destruct (runTools_spec (u :: uses) []
              (push {| role := assistant; content := Blocks (r_content response) |}
                 (with_world s w1))) as [results [w2 [Hrun Hids]]].
  rewrite Hrun. cbn [app].
  exists results. eexists. split; [reflexivity | ].
  cbn [messages systemPrompt push with_world world].
  rewrite <- app_assoc. cbn [app]. repeat split. exact Hids.
Qed.

Lemma handleResponse_no_tools response s :
  tool_uses (r_content response) = [] ->
  exists w',
    handleResponse caps response s
    = if has_text (r_content response) && stop_reason_is response end_turn
      then (Ok false,
            push {| role := assistant; content := Blocks (r_content response) |}
              (with_world s w'))
      else (Ok (stop_reason_is response tool_use), with_world s w').
Proof.
  intros Hnone. unfold handleResponse, bind at 1.
  destruct (scanBlocks_spec (r_content response) false [] s) as [w1 Hscan].
  rewrite Hscan. cbn [fst snd app orb]. rewrite Hnone.
  cbn [length Nat.ltb Nat.leb].
  exists w1.
  destruct (has_text (r_content response) && stop_reason_is response end_turn);
    reflexivity.
Qed.

(** What one round does, by the gateway's answer. *)
Lemma round_throw s e w' :
  sendMessage caps (systemPrompt s) (messages s)
    (emit caps (SpinnerStart "Thinking...") (world s)) = (Throw e, w') ->
  round caps s = (false, report caps e (with_world s w')).
Proof.
  intros Hsend. unfold round, attempt, bind at 1, on_world.
  cbn [world with_world messages systemPrompt].
  rewrite Hsend. reflexivity.
Qed.

Lemma round_response s response w' :
  sendMessage caps (systemPrompt s) (messages s)
    (emit caps (SpinnerStart "Thinking...") (world s)) = (Ok response, w') ->
  round caps s
  = match handleResponse caps response
            (with_world s (emit caps (SpinnerStop true None) w')) with
    | (Ok continueLoop, s') => (continueLoop, s')
    | (Throw error, s') => (false, report caps error s')
    end.
Proof.
  intros Hsend. unfold round, attempt, bind at 1, on_world.
  cbn [world with_world messages systemPrompt].
  rewrite Hsend. reflexivity.
Qed.

Lemma ordinary_assistant_turn response :
  tool_uses (r_content response) = [] ->
  ordinary {| role := assistant; content := Blocks (r_content response) |}.
Proof. intros H. unfold ordinary. cbn. split; [reflexivity | exact H]. Qed.

Lemma round_well_formed s :
  well_formed (messages s) -> well_formed (messages (snd (round caps s))).
Proof.
  intros Hwf.
  destruct (sendMessage caps (systemPrompt s) (messages s)
              (emit caps (SpinnerStart "Thinking...") (world s)))
    as [[response | e] w'] eqn:Hsend.
  - rewrite (round_response s response w' Hsend).
    destruct (tool_uses (r_content response)) as [| u uses] eqn:Huses.
    + destruct (handleResponse_no_tools response
                  (with_world s (emit caps (SpinnerStop true None) w')) Huses)
        as [w1 Hh].
      rewrite Hh.
      destruct (has_text (r_content response) && stop_reason_is response end_turn).
      * cbn [snd messages push with_world].
        apply wf_ordinary; [exact Hwf | apply ordinary_assistant_turn; exact Huses].
      * exact Hwf.
    + destruct (handleResponse_tools response
                  (with_world s (emit caps (SpinnerStop true None) w')))
        as [results [s' [Hh [Hmsgs [Hids _]]]]].
      { rewrite Huses. discriminate. }
      rewrite Hh. cbn [snd]. rewrite Hmsgs. cbn [messages with_world].
      apply wf_round; [exact Hwf | reflexivity | ].
      split; [reflexivity | ].
      exists results. split; [reflexivity | ].
      unfold requested_ids. cbn [content]. exact Hids.
  - rewrite (round_throw s e w' Hsend). exact Hwf.
Qed.

Lemma processConversation_well_formed fuel : forall s s',
  well_formed (messages s) ->
  processConversation caps fuel s = Some s' ->
  well_formed (messages s').
Proof.
  induction fuel as [| fuel IH]; intros s s' Hwf Hrun; [discriminate Hrun | ].
  cbn [processConversation] in Hrun.
  pose proof (round_well_formed s Hwf) as Hround.
  destruct (round caps s) as [continueLoop s1]. cbn [snd] in Hround.
  destruct continueLoop.
  - exact (IH s1 s' Hround Hrun).
  - injection Hrun as <-. exact Hround.
Qed.

Lemma ordinary_plain r t : ordinary {| role := r; content := Plain t |}.
Proof. exact I. Qed.

Lemma chat_well_formed fuel userMessage s s' :
  well_formed (messages s) ->
  chat caps fuel userMessage s = Some s' ->
  well_formed (messages s').
Proof.
  intros Hwf Hchat. unfold chat in Hchat.
  refine (processConversation_well_formed fuel _ s' _ Hchat).
  cbn [messages push]. apply wf_ordinary; [exact Hwf | apply ordinary_plain].
Qed.

Lemma session_well_formed fuel commands : forall s s',
  well_formed (messages s) ->
  session caps fuel commands s = Some s' ->
  well_formed (messages s').
Proof.
  induction commands as [| c commands IH]; intros s s' Hwf Hrun.
  - injection Hrun as <-. exact Hwf.
  - destruct c as [userMessage | context | ]; cbn [session] in Hrun.
    + destruct (chat caps fuel userMessage s) as [s1 | ] eqn:Hchat;
        [ | discriminate Hrun].
      exact (IH s1 s' (chat_well_formed fuel userMessage s s1 Hwf Hchat) Hrun).
    + refine (IH _ s' _ Hrun). unfold addContext. cbn [messages push].
      apply wf_ordinary; [ | apply ordinary_plain].
      apply wf_ordinary; [exact Hwf | apply ordinary_plain].
    + refine (IH _ s' _ Hrun). cbn [messages clearHistory]. apply wf_empty.
Qed.

End Loop.

Section Histories.
Import ConversationManager History.

Lemma ordinary_no_requests m :
  ordinary m -> requested_ids m = [].
Proof.
  unfold ordinary, requested_ids. destruct (content m) as [t | l].
  - reflexivity.
  - intros [_ ->]. reflexivity.
Qed.

Lemma ordinary_not_bundle m : ordinary m -> ~ bundle m.
Proof.
  unfold ordinary, bundle. intros Hord [Huser [blocks Hblocks]].
  rewrite Hblocks in Hord. destruct Hord as [Hrole _]. congruence.
Qed.

Lemma nth_error_snoc {A} (h : list A) (t : list A) i x :
  nth_error (h ++ t) i = Some x ->
  (i < length h /\ nth_error h i = Some x) \/
  (length h <= i /\ nth_error t (i - length h) = Some x).
Proof.
  intros H. destruct (Nat.lt_ge_cases i (length h)) as [Hlt | Hge].
  - left. rewrite nth_error_app1 in H by exact Hlt. split; assumption.
  - right. rewrite nth_error_app2 in H by exact Hge. split; assumption.
Qed.

Lemma nth_error_in_prefix {A} (h t : list A) i x :
  nth_error h i = Some x -> nth_error (h ++ t) i = Some x.
Proof.
  intros H. rewrite nth_error_app1; [exact H | ].
  apply nth_error_Some. congruence.
Qed.

Lemma well_formed_alternates h :
  well_formed h -> round_alternation h.
Proof.
  induction 1 as [| h m Hwf IH Hord | h a u Hwf IH Hrole Hans];
    intros i x Hnth Hassistant Hreq.
  - destruct i; discriminate Hnth.
  - apply nth_error_snoc in Hnth. destruct Hnth as [[Hlt Hnth] | [Hge Hnth]].
    + destruct (IH i x Hnth Hassistant Hreq) as [r [Hr Hanswers]].
      exists r. split; [apply nth_error_in_prefix; exact Hr | exact Hanswers].
    + destruct (i - length h) as [| k]; [ | destruct k; discriminate Hnth].
      injection Hnth as <-. exfalso. apply Hreq. apply ordinary_no_requests.
      exact Hord.
  - apply nth_error_snoc in Hnth. destruct Hnth as [[Hlt Hnth] | [Hge Hnth]].
    + destruct (IH i x Hnth Hassistant Hreq) as [r [Hr Hanswers]].
      exists r. split; [apply nth_error_in_prefix; exact Hr | exact Hanswers].
    + destruct (i - length h) as [| k] eqn:Hk.
      * injection Hnth as <-. exists u. split; [ | exact Hans].
        rewrite nth_error_app2 by lia.
        replace (S i - length h) with 1 by lia. reflexivity.
      * destruct k as [| k]; [ | destruct k; discriminate Hnth].
        injection Hnth as <-. destruct Hans as [Huser _]. congruence.
Qed.

Lemma well_formed_bundles h :
  well_formed h -> bundles_follow_requests h.
Proof.
  induction 1 as [| h m Hwf IH Hord | h a u Hwf IH Hrole Hans];
    intros i x Hnth Hbundle.
  - destruct i; discriminate Hnth.
  - apply nth_error_snoc in Hnth. destruct Hnth as [[Hlt Hnth] | [Hge Hnth]].
    + destruct (IH i x Hnth Hbundle) as [j [m' [Hi [Hj [Hrole Hans]]]]].
      exists j, m'. split; [exact Hi | ].
      split; [apply nth_error_in_prefix; exact Hj | ].
      split; assumption.
    + destruct (i - length h) as [| k]; [ | destruct k; discriminate Hnth].
      injection Hnth as <-. exfalso. exact (ordinary_not_bundle m Hord Hbundle).
  - apply nth_error_snoc in Hnth. destruct Hnth as [[Hlt Hnth] | [Hge Hnth]].
    + destruct (IH i x Hnth Hbundle) as [j [m' [Hi [Hj [Hrole' Hans']]]]].
      exists j, m'. split; [exact Hi | ].
      split; [apply nth_error_in_prefix; exact Hj | ].
      split; assumption.
    + destruct (i - length h) as [| k] eqn:Hk.
      * injection Hnth as <-. destruct Hbundle as [Huser _]. congruence.
      * destruct k as [| k]; [ | destruct k; discriminate Hnth].
        injection Hnth as <-.
        exists (length h), a. split; [lia | ]. split; [ | split; assumption].
        rewrite nth_error_app2 by lia. rewrite Nat.sub_diag. reflexivity.
Qed.

End Histories.

(** C1. Take a manager in any state its owner can have brought it to
    (by calls of [chat], [addContext] and [clearHistory] that
    completed) and a call of [chat] that completes.  In the history
    every assistant message with K > 0 tool-invocation requests is
    directly followed by a user message made of exactly K tool results
    that carry the ids of the requests in the same order; and a bundle
    of tool results occurs nowhere else. *)
Theorem round_alternation_after_chat :
  forall (W : Type) (caps : Caps W) fuel w customSystemPrompt before s userMessage s',
    ConversationManager.session caps fuel before
      (ConversationManager.create w customSystemPrompt) = Some s ->
    ConversationManager.chat caps fuel userMessage s = Some s' ->
    History.round_alternation (ConversationManager.getHistory s') /\
    History.bundles_follow_requests (ConversationManager.getHistory s').
Proof.
  intros W caps fuel w customSystemPrompt before s userMessage s' Hbefore Hchat.
  assert (Hwf : History.well_formed (ConversationManager.messages s')).
  { apply (chat_well_formed caps fuel userMessage s s'); [ | exact Hchat].
    apply (session_well_formed caps fuel before
             (ConversationManager.create w customSystemPrompt) s);
      [ | exact Hbefore].
    apply History.wf_empty. }
  split.
  - apply well_formed_alternates. exact Hwf.
  - apply well_formed_bundles. exact Hwf.
Qed.

Lemma round_alternation_after_chat_witness :
  exists s',
    ConversationManager.chat Scripted.caps 6 "create a story"
      (ConversationManager.addContext "Current project: shop. "
         (ConversationManager.create Samples.creation None)) = Some s' /\
    length (ConversationManager.getHistory s') = 10 /\
    History.round_alternation (ConversationManager.getHistory s') /\
    History.bundles_follow_requests (ConversationManager.getHistory s').
Proof.
  destruct (ConversationManager.chat Scripted.caps 6 "create a story"
              (ConversationManager.addContext "Current project: shop. "
                 (ConversationManager.create Samples.creation None)))
    as [s' | ] eqn:Hchat; [ | vm_compute in Hchat; discriminate Hchat].
  exists s'. split; [reflexivity | ].
  split.
  - vm_compute in Hchat. injection Hchat as <-. reflexivity.
  - exact (round_alternation_after_chat Scripted.World Scripted.caps 6
             Samples.creation None
             [ConversationManager.AddContext "Current project: shop. "]
             _ "create a story" s' eq_refl Hchat).
Defined.

Section Termination.
Import ConversationManager History.
Context {W : Type} (caps : Caps W).

Lemma processConversation_stops fuel s s' :
  round caps s = (false, s') ->
  processConversation caps (S fuel) s = Some s'.
Proof. intros Hround. cbn [processConversation]. rewrite Hround. reflexivity. Qed.

Lemma completed_rounds_then n : forall fuel s sn,
  completed_rounds caps n s = Some sn ->
  processConversation caps (n + fuel) s = processConversation caps fuel sn.
Proof.
  induction n as [| n IH]; intros fuel s sn Hrounds.
  - injection Hrounds as <-. reflexivity.
  - cbn [completed_rounds] in Hrounds. cbn [Nat.add processConversation].
    destruct (round caps s) as [continueLoop s1].
    destruct continueLoop; [ | discriminate Hrounds].
    exact (IH fuel s1 sn Hrounds).
Qed.

Lemma stop_reason_is_true response r :
  stop_reason response = Some r -> stop_reason_is response r = true.
Proof. unfold stop_reason_is. intros ->. destruct r; reflexivity. Qed.

Lemma stop_reason_is_false response r :
  stop_reason response <> Some r -> stop_reason_is response r = false.
Proof.
  unfold stop_reason_is. intros Hne.
  destruct (stop_reason response) as [r' | ]; [ | reflexivity].
  destruct r', r; try reflexivity; exfalso; apply Hne; reflexivity.
Qed.

End Termination.

(** C3, as the code has it.  When the gateway answers with no
    tool-invocation item, at least one text item and the stop reason
    [end_turn], the round appends exactly one assistant message, the
    response's content, and the loop ends with that round. *)
Theorem text_end_turn_appends_and_stops :
  forall (W : Type) (caps : Caps W) (s : ConversationManager.State W) response w' fuel,
    sendMessage caps (ConversationManager.systemPrompt s) (ConversationManager.messages s)
      (emit caps (SpinnerStart "Thinking...") (ConversationManager.world s))
    = (Ok response, w') ->
    History.tool_uses (r_content response) = [] ->
    History.has_text (r_content response) = true ->
    stop_reason response = Some end_turn ->
    exists s',
      ConversationManager.round caps s = (false, s') /\
      ConversationManager.processConversation caps (S fuel) s = Some s' /\
      ConversationManager.messages s'
      = (ConversationManager.messages s
           ++ [ {| role := assistant; content := Blocks (r_content response) |} ])%list.
Proof.
  intros W caps s response w' fuel Hsend Hnone Htext Hstop.
  pose proof (round_response caps s response w' Hsend) as Hround.
  destruct (handleResponse_no_tools caps response
              (ConversationManager.with_world s (emit caps (SpinnerStop true None) w'))
              Hnone) as [w1 Hh].
  rewrite Htext, (stop_reason_is_true response end_turn Hstop) in Hh.
  cbn [andb] in Hh. rewrite Hh in Hround.
  eexists. split; [exact Hround | ].
  split; [apply processConversation_stops; exact Hround | reflexivity].
Qed.

Lemma text_end_turn_appends_and_stops_witness :
  exists s',
    ConversationManager.processConversation Scripted.caps 1
      (ConversationManager.create
         (Scripted.with_replies [Ok (Samples.says "Done." end_turn)] Scripted.world0)
         None) = Some s' /\
    ConversationManager.messages s'
    = [ {| role := assistant; content := Blocks [TextBlock "Done."] |} ].
Proof.
  destruct (text_end_turn_appends_and_stops Scripted.World Scripted.caps
              (ConversationManager.create
                 (Scripted.with_replies [Ok (Samples.says "Done." end_turn)]
                    Scripted.world0) None)
              (Samples.says "Done." end_turn)
              (Scripted.print (SpinnerStart "Thinking...") Scripted.world0) 0
              eq_refl eq_refl eq_refl eq_refl) as [s' [_ [Hrun Hmsgs]]].
  exists s'. split; [exact Hrun | exact Hmsgs].
Defined.

(** C3, as stated, fails: the gateway ends its turn with an empty
    content array (no tool-invocation item, stop reason [end_turn]); the
    loop ends, and no assistant message is appended. *)
Lemma end_turn_without_text_appends_nothing :
  let response := {| r_content := []; stop_reason := Some end_turn |} in
  let s := ConversationManager.create Samples.silent None in
  sendMessage Scripted.caps (ConversationManager.systemPrompt s)
    [ {| role := user; content := Plain "Hello" |} ]
    (Scripted.print (SpinnerStart "Thinking...") Samples.silent)
  = (Ok response, Scripted.print (SpinnerStart "Thinking...") Scripted.world0) /\
  History.tool_uses (r_content response) = [] /\
  stop_reason response = Some end_turn /\
  exists s',
    ConversationManager.chat Scripted.caps 1 "Hello" s = Some s' /\
    ConversationManager.messages s' = [ {| role := user; content := Plain "Hello" |} ].
Proof.
  cbv zeta. split; [reflexivity | ]. split; [reflexivity | ]. split; [reflexivity | ].
  eexists. split; reflexivity.
Qed.

(** C4, as the code has it.  When the gateway answers with no
    tool-invocation item and a stop reason that is neither [end_turn]
    nor [tool_use], the loop ends with that round and nothing is
    appended to the history. *)
Theorem other_stop_reason_ends_loop :
  forall (W : Type) (caps : Caps W) (s : ConversationManager.State W) response w' fuel,
    sendMessage caps (ConversationManager.systemPrompt s) (ConversationManager.messages s)
      (emit caps (SpinnerStart "Thinking...") (ConversationManager.world s))
    = (Ok response, w') ->
    History.tool_uses (r_content response) = [] ->
    stop_reason response <> Some end_turn ->
    stop_reason response <> Some tool_use ->
    exists s',
      ConversationManager.round caps s = (false, s') /\
      ConversationManager.processConversation caps (S fuel) s = Some s' /\
      ConversationManager.messages s' = ConversationManager.messages s.
Proof.
  intros W caps s response w' fuel Hsend Hnone Hend Htool.
  pose proof (round_response caps s response w' Hsend) as Hround.
  destruct (handleResponse_no_tools caps response
              (ConversationManager.with_world s (emit caps (SpinnerStop true None) w'))
              Hnone) as [w1 Hh].
  rewrite (stop_reason_is_false response end_turn Hend),
    (stop_reason_is_false response tool_use Htool), andb_false_r in Hh.
  rewrite Hh in Hround.
  eexists. split; [exact Hround | ].
  split; [apply processConversation_stops; exact Hround | reflexivity].
Qed.

Lemma other_stop_reason_ends_loop_witness :
  exists s',
    ConversationManager.processConversation Scripted.caps 5
      (ConversationManager.create Samples.truncated None) = Some s' /\
    ConversationManager.messages s' = [].
Proof.
  destruct (other_stop_reason_ends_loop Scripted.World Scripted.caps
              (ConversationManager.create Samples.truncated None)
              (Samples.says "The story so far" max_tokens)
              (Scripted.with_replies [Ok (Samples.says "and the rest." end_turn)]
                 (Scripted.print (SpinnerStart "Thinking...") Scripted.world0)) 4
              eq_refl eq_refl) as [s' [_ [Hrun Hmsgs]]].
  - discriminate.
  - discriminate.
  - exists s'. split; [exact Hrun | exact Hmsgs].
Defined.

(** C4, as stated, fails: the gateway stops at the token limit with
    text only ([max_tokens], no tool-invocation item); the loop ends
    after that round although its bound allows four more, and the next
    scripted answer of the gateway is never asked for. *)
Lemma max_tokens_does_not_continue :
  let response := Samples.says "The story so far" max_tokens in
  History.tool_uses (r_content response) = [] /\
  stop_reason response <> Some end_turn /\
  stop_reason response <> Some tool_use /\
  ConversationManager.completed_rounds Scripted.caps 1
    (ConversationManager.push {| role := user; content := Plain "Draft it" |}
       (ConversationManager.create Samples.truncated None)) = None /\
  exists s',
    ConversationManager.chat Scripted.caps 5 "Draft it"
      (ConversationManager.create Samples.truncated None) = Some s' /\
    ConversationManager.messages s' = [ {| role := user; content := Plain "Draft it" |} ] /\
    Scripted.replies (ConversationManager.world s')
    = [Ok (Samples.says "and the rest." end_turn)].
Proof.
  cbv zeta. split; [reflexivity | ]. split; [discriminate | ]. split; [discriminate | ].
  split; [reflexivity | ].
  eexists. split; [reflexivity | ]. split; reflexivity.
Qed.

(** C6. If the gateway call throws in some round of a [chat] call, after
    [n] rounds that completed and asked for another one, the call ends
    with that round: the history is the one those [n] rounds left (for
    [n = 0], the old history and the user message), nothing is appended
    for the failing round, and the gateway is not called again. *)
Theorem gateway_error_leaves_history :
  forall (W : Type) (caps : Caps W) userMessage
         (s0 : ConversationManager.State W) n sn e w' fuel,
    ConversationManager.completed_rounds caps n
      (ConversationManager.push {| role := user; content := Plain userMessage |} s0)
    = Some sn ->
    sendMessage caps (ConversationManager.systemPrompt sn) (ConversationManager.messages sn)
      (emit caps (SpinnerStart "Thinking...") (ConversationManager.world sn))
    = (Throw e, w') ->
    n < fuel ->
    exists s',
      ConversationManager.chat caps fuel userMessage s0 = Some s' /\
      s' = ConversationManager.report caps e (ConversationManager.with_world sn w') /\
      ConversationManager.getHistory s' = ConversationManager.messages sn /\
      (n = 0 ->
       ConversationManager.getHistory s'
       = (ConversationManager.messages s0
            ++ [ {| role := user; content := Plain userMessage |} ])%list).
Proof.
  intros W caps userMessage s0 n sn e w' fuel Hrounds Hsend Hfuel.
  exists (ConversationManager.report caps e (ConversationManager.with_world sn w')).
  split; [ | split; [reflexivity | split; [reflexivity | ] ] ].
  - unfold ConversationManager.chat.
    replace fuel with (n + S (fuel - S n)) by lia.
    rewrite (completed_rounds_then caps n _ _ sn Hrounds).
    apply processConversation_stops. apply round_throw. exact Hsend.
  - intros ->. injection Hrounds as <-. reflexivity.
Qed.

Lemma gateway_error_leaves_history_witness :
  exists s',
    ConversationManager.chat Scripted.caps 5 "List all stories"
      (ConversationManager.create Samples.outage None) = Some s' /\
    map role (ConversationManager.getHistory s') = [user; assistant; user] /\
    Scripted.replies (ConversationManager.world s')
    = [Ok (Samples.says "Here they are." end_turn)].
Proof.
  pose proof (fun sn e w' Hrounds Hsend =>
                gateway_error_leaves_history Scripted.World Scripted.caps
                  "List all stories"
                  (ConversationManager.create Samples.outage None)
                  1 sn e w' 5 Hrounds Hsend ltac:(lia)) as Hthm.
  edestruct Hthm as [s' [Hchat [Hs' [Hhistory _]]]].
  - reflexivity.
  - reflexivity.
  - exists s'. split; [exact Hchat | ].
    split; [rewrite Hhistory; reflexivity | rewrite Hs'; reflexivity].
Defined.

(* ================================================================== *)
(** * More on the orchestration loop *)
(* ================================================================== *)

Section LoopExtras.
Import ConversationManager History.
Context {W : Type} (caps : Caps W).

Lemma scanBlocks_world blocks : forall hasText toolUseBlocks s,
  scanBlocks caps blocks hasText toolUseBlocks s
  = (Ok (hasText || has_text blocks, (toolUseBlocks ++ tool_uses blocks)%list),
     with_world s (fold_left (Display.show_text caps) (Display.texts blocks) (world s))).
Proof.
  induction blocks as [| b blocks IH]; intros hasText toolUseBlocks s.
  - simpl. rewrite orb_false_r, app_nil_r. destruct s; reflexivity.
  - destruct b as [t | u | r | ty];
      cbn [scanBlocks has_text tool_uses Display.texts fold_left].
    + unfold bind, say, on_world, effect.
      cbn [world with_world messages systemPrompt].
      rewrite IH. rewrite orb_true_r. reflexivity.
    + rewrite IH, <- app_assoc. reflexivity.
    + apply IH.
    + apply IH.
Qed.

Lemma runTools_cons u rest toolResults s :
  runTools caps (u :: rest) toolResults s
  = match ToolExecutor.execute caps (tu_name u) (tu_input u)
            (emit caps (ConsoleLog ("Using tool: " ++ tu_name u))
               (emit caps (ConsoleLog EmptyString) (world s))) with
    | (Ok result, w1) =>
        runTools caps rest
          (toolResults ++ [ {| tool_use_id := tu_id u;
                               tr_content := JSON_stringify caps result |} ])%list
          (with_world s w1)
    | (Throw e, w1) => (Throw e, with_world s w1)
    end.
Proof.
  cbn [runTools]. unfold bind, say, on_world, effect.
  cbn [world with_world messages systemPrompt].
  destruct (ToolExecutor.execute caps (tu_name u) (tu_input u) _) as [[result | e] w1];
    reflexivity.
Qed.

Lemma runTools_app first : forall second toolResults s,
  runTools caps (first ++ second) toolResults s
  = bind (runTools caps first toolResults) (runTools caps second) s.
Proof.
  induction first as [| u first IH]; intros second toolResults s.
  - reflexivity.
  - cbn [app]. unfold bind. rewrite !runTools_cons.
    destruct (ToolExecutor.execute caps (tu_name u) (tu_input u) _) as [[result | e] w1].
    + rewrite IH. reflexivity.
    + reflexivity.
Qed.

Lemma handleResponse_steps response s :
  let s1 := with_world s (fold_left (Display.show_text caps)
                            (Display.texts (r_content response)) (world s)) in
  handleResponse caps response s
  = match tool_uses (r_content response) with
    | [] =>
        if has_text (r_content response) && stop_reason_is response end_turn
        then (Ok false,
              push {| role := assistant; content := Blocks (r_content response) |} s1)
        else (Ok (stop_reason_is response tool_use), s1)
    | u :: uses =>
        match runTools caps (u :: uses) []
                (push {| role := assistant; content := Blocks (r_content response) |} s1)
        with
        | (Ok toolResults, s2) =>
            (Ok true,
             push {| role := user; content := Blocks (map ToolResultBlock toolResults) |} s2)
        | (Throw e, s2) => (Throw e, s2)
        end
    end.
Proof.
  cbv zeta. unfold handleResponse, bind at 1.
  rewrite scanBlocks_world. cbn [fst snd app orb].
  destruct (tool_uses (r_content response)) as [| u uses].
  - cbn [length Nat.ltb Nat.leb].
    destruct (has_text (r_content response) && stop_reason_is response end_turn);
      reflexivity.
  - cbn [length Nat.ltb Nat.leb]. unfold bind, effect.
    destruct (runTools caps (u :: uses) [] _) as [[toolResults | e] s2]; reflexivity.
Qed.

Lemma round_extends s :
  exists suffix,
    messages (snd (round caps s)) = (messages s ++ suffix)%list /\
    length suffix <= 2 /\
    systemPrompt (snd (round caps s)) = systemPrompt s.
Proof.
  destruct (sendMessage caps (systemPrompt s) (messages s)
              (emit caps (SpinnerStart "Thinking...") (world s)))
    as [[response | e] w'] eqn:Hsend.
  - rewrite (round_response caps s response w' Hsend).
    destruct (tool_uses (r_content response)) as [| u uses] eqn:Huses.
    + destruct (handleResponse_no_tools caps response
                  (with_world s (emit caps (SpinnerStop true None) w')) Huses)
        as [w1 Hh].
      rewrite Hh.
      destruct (has_text (r_content response) && stop_reason_is response end_turn).
      * eexists. cbn [snd messages systemPrompt push with_world].
        split; [reflexivity | split; [cbn; lia | reflexivity]].
      * exists []. cbn [snd messages systemPrompt with_world].
        rewrite app_nil_r. split; [reflexivity | split; [cbn; lia | reflexivity]].
    + destruct (handleResponse_tools caps response
                  (with_world s (emit caps (SpinnerStop true None) w')))
        as [results [s' [Hh [Hmsgs [_ Hprompt]]]]].
      { rewrite Huses. discriminate. }
      rewrite Hh. cbn [snd]. rewrite Hmsgs, Hprompt.
      eexists. split; [reflexivity | split; [cbn; lia | reflexivity]].
  - rewrite (round_throw caps s e w' Hsend).
    exists []. cbn [snd report messages systemPrompt with_world].
    rewrite app_nil_r. split; [reflexivity | split; [cbn; lia | reflexivity]].
Qed.

Lemma processConversation_extends fuel : forall s s',
  processConversation caps fuel s = Some s' ->
  exists suffix,
    messages s' = (messages s ++ suffix)%list /\ systemPrompt s' = systemPrompt s.
Proof.
  induction fuel as [| fuel IH]; intros s s' Hrun; [discriminate Hrun | ].
  cbn [processConversation] in Hrun.
  destruct (round_extends s) as [suffix [Hmsgs [_ Hprompt]]].
  destruct (round caps s) as [continueLoop s1]. cbn [snd] in Hmsgs, Hprompt.
  destruct continueLoop.
  - destruct (IH s1 s' Hrun) as [more [Hmore Hprompt']].
    exists (suffix ++ more)%list. rewrite Hmore, Hmsgs, app_assoc.
    split; [reflexivity | congruence].
  - injection Hrun as <-. exists suffix. split; assumption.
Qed.

Lemma round_continues_forever :
  (forall p msgs w, exists response w',
      sendMessage caps p msgs w = (Ok response, w') /\
      tool_uses (r_content response) <> []) ->
  forall fuel s, processConversation caps fuel s = None.
Proof.
  intros Halways. induction fuel as [| fuel IH]; intros s; [reflexivity | ].
  cbn [processConversation].
  destruct (Halways (systemPrompt s) (messages s)
              (emit caps (SpinnerStart "Thinking...") (world s)))
    as [response [w' [Hsend Huses]]].
  rewrite (round_response caps s response w' Hsend).
  destruct (handleResponse_tools caps response
              (with_world s (emit caps (SpinnerStop true None) w')) Huses)
    as [results [s' [Hh _]]].
  rewrite Hh. apply IH.
Qed.

End LoopExtras.

(** X1. A completed [chat] call only appends to the history: the old
    messages stay in place, the next one is the user's message, and the
    system prompt is the same. *)
Theorem chat_only_appends :
  forall (W : Type) (caps : Caps W) fuel userMessage
         (s s' : ConversationManager.State W),
    ConversationManager.chat caps fuel userMessage s = Some s' ->
    exists suffix,
      ConversationManager.getHistory s'
      = (ConversationManager.getHistory s
           ++ {| role := user; content := Plain userMessage |} :: suffix)%list /\
      ConversationManager.systemPrompt s' = ConversationManager.systemPrompt s.
Proof.
  intros W caps fuel userMessage s s' Hchat. unfold ConversationManager.chat in Hchat.
  destruct (processConversation_extends caps fuel _ s' Hchat) as [suffix [Hmsgs Hprompt]].
  exists suffix. unfold ConversationManager.getHistory. rewrite Hmsgs.
  cbn [ConversationManager.messages ConversationManager.push].
  rewrite <- app_assoc. split; [reflexivity | exact Hprompt].
Qed.

Lemma chat_only_appends_witness :
  exists s' suffix,
    ConversationManager.chat Scripted.caps 6 "create a story"
      (ConversationManager.addContext "Current project: shop. "
         (ConversationManager.create Samples.creation None)) = Some s' /\
    ConversationManager.getHistory s'
    = ([ {| role := user; content := Plain "[Context] Current project: shop. " |};
         {| role := assistant;
            content := Plain "I understand the context. How can I help you?" |} ]
         ++ {| role := user; content := Plain "create a story" |} :: suffix)%list /\
    length suffix = 7.
Proof.
  destruct (ConversationManager.chat Scripted.caps 6 "create a story"
              (ConversationManager.addContext "Current project: shop. "
                 (ConversationManager.create Samples.creation None)))
    as [s' | ] eqn:Hchat; [ | vm_compute in Hchat; discriminate Hchat].
  destruct (chat_only_appends Scripted.World Scripted.caps 6 "create a story" _ s' Hchat)
    as [suffix [Hhistory _]].
  exists s', suffix. split; [reflexivity | ]. split; [exact Hhistory | ].
  apply (f_equal (@length _)) in Hhistory.
  vm_compute in Hchat. injection Hchat as <-.
  rewrite length_app in Hhistory. cbn in Hhistory. lia.
Defined.

(** X2. A response with at least one tool-invocation item always asks
    for another round, whatever its stop reason: the round appends the
    assistant message and one bundle of results, one result per request
    in order. *)
Theorem tool_round_continues :
  forall (W : Type) (caps : Caps W) (s : ConversationManager.State W) response w',
    sendMessage caps (ConversationManager.systemPrompt s) (ConversationManager.messages s)
      (emit caps (SpinnerStart "Thinking...") (ConversationManager.world s))
    = (Ok response, w') ->
    History.tool_uses (r_content response) <> [] ->
    exists results s',
      ConversationManager.round caps s = (true, s') /\
      ConversationManager.messages s'
      = (ConversationManager.messages s
           ++ [ {| role := assistant; content := Blocks (r_content response) |};
                {| role := user; content := Blocks (map ToolResultBlock results) |} ])%list /\
      map tool_use_id results = map tu_id (History.tool_uses (r_content response)).
Proof.
  intros W caps s response w' Hsend Huses.
  rewrite (round_response caps s response w' Hsend).
  destruct (handleResponse_tools caps response
              (ConversationManager.with_world s (emit caps (SpinnerStop true None) w'))
              Huses) as [results [s' [Hh [Hmsgs [Hids _]]]]].
  rewrite Hh. exists results, s'. split; [reflexivity | ]. split; assumption.
Qed.

Lemma tool_round_continues_witness :
  exists results s',
    ConversationManager.round Scripted.caps
      (ConversationManager.create Doubles.mislabelled None) = (true, s') /\
    ConversationManager.messages s'
    = [ {| role := assistant;
           content := Blocks [Samples.request "toolu_1" "list_features" []] |};
        {| role := user; content := Blocks (map ToolResultBlock results) |} ] /\
    map tool_use_id results = ["toolu_1"].
Proof.
  refine (tool_round_continues Scripted.World Scripted.caps
            (ConversationManager.create Doubles.mislabelled None)
            {| r_content := [Samples.request "toolu_1" "list_features" []];
               stop_reason := Some end_turn |}
            _ eq_refl _).
  discriminate.
Defined.

(** X3. A response without tool-invocation item whose stop reason is
    [tool_use] asks for another round and leaves the history as it was:
    the gateway is sent the same messages again. *)
Theorem tool_use_without_request_repeats :
  forall (W : Type) (caps : Caps W) (s : ConversationManager.State W) response w',
    sendMessage caps (ConversationManager.systemPrompt s) (ConversationManager.messages s)
      (emit caps (SpinnerStart "Thinking...") (ConversationManager.world s))
    = (Ok response, w') ->
    History.tool_uses (r_content response) = [] ->
    stop_reason response = Some tool_use ->
    exists s',
      ConversationManager.round caps s = (true, s') /\
      ConversationManager.messages s' = ConversationManager.messages s /\
      ConversationManager.systemPrompt s' = ConversationManager.systemPrompt s.
Proof.
  intros W caps s response w' Hsend Hnone Hstop.
  rewrite (round_response caps s response w' Hsend).
  destruct (handleResponse_no_tools caps response
              (ConversationManager.with_world s (emit caps (SpinnerStop true None) w'))
              Hnone) as [w1 Hh].
  assert (Hend : stop_reason_is response end_turn = false).
  { apply stop_reason_is_false. rewrite Hstop. discriminate. }
  rewrite Hend, andb_false_r, (stop_reason_is_true response tool_use Hstop) in Hh.
  rewrite Hh. eexists. split; [reflexivity | ]. split; reflexivity.
Qed.

Lemma tool_use_without_request_repeats_witness :
  exists s',
    ConversationManager.round Scripted.caps
      (ConversationManager.create Doubles.hollow None) = (true, s') /\
    ConversationManager.messages s' = [] /\
    ConversationManager.systemPrompt s' = BA_SYSTEM_PROMPT.
Proof.
  refine (tool_use_without_request_repeats Scripted.World Scripted.caps
            (ConversationManager.create Doubles.hollow None)
            {| r_content := [TextBlock "One moment."]; stop_reason := Some tool_use |}
            _ eq_refl eq_refl eq_refl).
Defined.

(** X4. The loop has no bound on the number of rounds: against a
    gateway that asks for a tool in every response, [chat] does not
    return, whatever the number of rounds it is allowed. *)
Theorem chat_never_returns_when_tools_always_requested :
  forall (W : Type) (caps : Caps W),
    (forall p msgs w, exists response w',
        sendMessage caps p msgs w = (Ok response, w') /\
        History.tool_uses (r_content response) <> []) ->
    forall fuel userMessage (s : ConversationManager.State W),
      ConversationManager.chat caps fuel userMessage s = None.
Proof.
  intros W caps Halways fuel userMessage s. unfold ConversationManager.chat.
  apply round_continues_forever. exact Halways.
Qed.

Lemma chat_never_returns_when_tools_always_requested_witness :
  ConversationManager.chat Doubles.insistent 1000 "List the features"
    (ConversationManager.create Scripted.world0 None) = None.
Proof.
  apply (chat_never_returns_when_tools_always_requested Scripted.World Doubles.insistent).
  intros p msgs w. eexists. exists w. split; [reflexivity | discriminate].
Defined.

(** X5. [handleResponse] shows every text item of the response, in the
    order received and before any tool runs; items of other types show
    nothing.  Then it decides by the tool-invocation items: none and a
    final text, the assistant message is appended; none otherwise,
    nothing is appended; some, the assistant message is appended, the
    tools run, and their results are appended as one user message. *)
Theorem handleResponse_shows_texts_first :
  forall (W : Type) (caps : Caps W) response (s : ConversationManager.State W),
    let s1 := ConversationManager.with_world s
                (fold_left (Display.show_text caps)
                   (Display.texts (r_content response))
                   (ConversationManager.world s)) in
    let turn := {| role := assistant; content := Blocks (r_content response) |} in
    ConversationManager.handleResponse caps response s
    = match History.tool_uses (r_content response) with
      | [] =>
          if History.has_text (r_content response) && stop_reason_is response end_turn
          then (Ok false, ConversationManager.push turn s1)
          else (Ok (stop_reason_is response tool_use), s1)
      | u :: uses =>
          match ConversationManager.runTools caps (u :: uses) []
                  (ConversationManager.push turn s1) with
          | (Ok toolResults, s2) =>
              (Ok true,
               ConversationManager.push
                 {| role := user; content := Blocks (map ToolResultBlock toolResults) |}
                 s2)
          | (Throw e, s2) => (Throw e, s2)
          end
      end.
Proof. intros W caps response s. apply handleResponse_steps. Qed.

(** X6. The requested tools run one after another in the order of the
    requests: a tool runs in the world its predecessors left, and its
    successors run in the world it leaves. *)
Theorem tools_run_in_request_order :
  forall (W : Type) (caps : Caps W) earlier toolUse later toolResults
         (s : ConversationManager.State W),
    ConversationManager.runTools caps (earlier ++ toolUse :: later) toolResults s
    = match ConversationManager.runTools caps earlier toolResults s with
      | (Ok results, s1) =>
          match ToolExecutor.execute caps (tu_name toolUse) (tu_input toolUse)
                  (emit caps (ConsoleLog ("Using tool: " ++ tu_name toolUse))
                     (emit caps (ConsoleLog EmptyString) (ConversationManager.world s1)))
          with
          | (Ok result, w2) =>
              ConversationManager.runTools caps later
                (results ++ [ {| tool_use_id := tu_id toolUse;
                                 tr_content := JSON_stringify caps result |} ])%list
                (ConversationManager.with_world s1 w2)
          | (Throw e, w2) => (Throw e, ConversationManager.with_world s1 w2)
          end
      | (Throw e, s1) => (Throw e, s1)
      end.
Proof.
  intros W caps earlier toolUse later toolResults s.
  rewrite runTools_app. unfold bind.
  destruct (ConversationManager.runTools caps earlier toolResults s)
    as [[results | e] s1]; [ | reflexivity].
  apply runTools_cons.
Qed.

(* ================================================================== *)
(** * More on the tool handlers *)
(* ================================================================== *)

Section HandlerExtras.
Import ToolExecutor.
Context {W : Type} (caps : Caps W).



End HandlerExtras.

(** X7. [ask_user_question], one choice.  The prompt shows the mapped
    options, followed by the option "Other" unless [allowCustom] is
    false.  A plain choice is returned as it is.  The choice
    ["__custom__"] opens a free-text prompt, and what the user types
    there is the answer. *)
Theorem single_choice_answer :
  forall (W : Type) (caps : Caps W) input items picked typed w w1 w2,
    ToolExecutor.array_map "options" (Js.lookup input "options")
      ToolExecutor.question_option = inr (VArr items) ->
    Js.truthy (Js.nullish (Js.lookup input "multiSelect") (VBool false)) = false ->
    askSelect caps (Js.lookup input "question")
      (if Js.truthy (Js.nullish (Js.lookup input "allowCustom") (VBool true))
       then (items ++ [ToolExecutor.custom_option])%list else items) w
    = (Ok (VStr picked), w1) ->
    (picked = "__custom__" ->
     askQuestion caps "Please enter your answer:" w1 = (Ok typed, w2)) ->
    ToolExecutor.execute caps "ask_user_question" input w
    = if String.eqb picked "__custom__"
      then (Ok {| success := true;
                  data := Some (VObj [ ("question", Js.lookup input "question");
                                       ("answer", VStr typed) ]);
                  error := None;
                  requiresUserInput := Some true;
                  userInput := Some (VStr typed) |}, w2)
      else (Ok {| success := true;
                  data := Some (VObj [ ("question", Js.lookup input "question");
                                       ("answer", VStr picked) ]);
                  error := None;
                  requiresUserInput := Some true;
                  userInput := Some (VStr picked) |}, w1).
Proof.
  intros W caps input items picked typed w w1 w2 Hmap Hsingle Hpick Htyped.
  change (ToolExecutor.execute caps "ask_user_question" input)
    with (ToolExecutor.askUserQuestion caps input).
  unfold ToolExecutor.askUserQuestion, try_catch, ToolExecutor.askUserQuestion_body,
    bind at 1.
  rewrite Hmap. cbn [lift ret]. rewrite Hsingle.
  unfold bind at 1. rewrite Hpick.
  unfold bind at 1. cbn [Js.is_str ToolExecutor.includes_custom]. rewrite orb_false_r.
  destruct (String.eqb_spec picked "__custom__") as [Hcustom | _].
  - unfold bind. rewrite (Htyped Hcustom). reflexivity.
  - reflexivity.
Qed.

Lemma single_choice_answer_witness :
  ToolExecutor.execute Scripted.caps "ask_user_question" Samples.question
    (Scripted.with_answers [Scripted.Pick (VStr "__custom__"); Scripted.Typed "Auditor"]
       Scripted.world0)
  = (Ok {| success := true;
           data := Some (VObj [ ("question", VStr "Who is the user?");
                                ("answer", VStr "Auditor") ]);
           error := None;
           requiresUserInput := Some true;
           userInput := Some (VStr "Auditor") |}, Scripted.world0).
Proof.
  exact (single_choice_answer Scripted.World Scripted.caps Samples.question
           [ VObj [("label", VStr "Admin"); ("value", VStr "admin");
                   ("description", VUndefined)];
             VObj [("label", VStr "Guest"); ("value", VStr "guest");
                   ("description", VUndefined)] ]
           "__custom__" "Auditor"
           (Scripted.with_answers
              [Scripted.Pick (VStr "__custom__"); Scripted.Typed "Auditor"]
              Scripted.world0)
           (Scripted.with_answers [Scripted.Typed "Auditor"] Scripted.world0)
           Scripted.world0 eq_refl eq_refl eq_refl (fun _ => eq_refl)).
Defined.

(** X8. [ask_user_question], several choices.  If ["__custom__"] is
    among the selected values, a free-text prompt follows; the answer is
    the other selected values in their order, followed by what the user
    typed, so that no selected ["__custom__"] is left in it.  Otherwise
    the answer is the selection, and no further prompt is shown. *)
Theorem multiple_choice_answer :
  forall (W : Type) (caps : Caps W) input items selected typed w w1 w2,
    ToolExecutor.array_map "options" (Js.lookup input "options")
      ToolExecutor.question_option = inr (VArr items) ->
    Js.truthy (Js.nullish (Js.lookup input "multiSelect") (VBool false)) = true ->
    askMultiSelect caps (Js.lookup input "question")
      (if Js.truthy (Js.nullish (Js.lookup input "allowCustom") (VBool true))
       then (items ++ [ToolExecutor.custom_option])%list else items) w
    = (Ok selected, w1) ->
    (existsb (fun a => Js.is_str a "__custom__") selected = true ->
     askQuestion caps "Please enter your answer:" w1 = (Ok typed, w2)) ->
    let others := filter (fun a => negb (Js.is_str a "__custom__")) selected in
    Forall (fun a => a <> VStr "__custom__") others /\
    ToolExecutor.execute caps "ask_user_question" input w
    = if existsb (fun a => Js.is_str a "__custom__") selected
      then (Ok {| success := true;
                  data := Some (VObj [ ("question", Js.lookup input "question");
                                       ("answer", VArr (others ++ [VStr typed])) ]);
                  error := None;
                  requiresUserInput := Some true;
                  userInput := Some (VArr (others ++ [VStr typed])) |}, w2)
      else (Ok {| success := true;
                  data := Some (VObj [ ("question", Js.lookup input "question");
                                       ("answer", VArr selected) ]);
                  error := None;
                  requiresUserInput := Some true;
                  userInput := Some (VArr selected) |}, w1).
Proof.
  intros W caps input items selected typed w w1 w2 Hmap Hmulti Hpick Htyped others.
  split.
  - apply Forall_forall. intros a Hin Heq. subst others.
    apply filter_In in Hin. destruct Hin as [_ Hkeep]. subst a.
    cbn in Hkeep. discriminate Hkeep.
  - change (ToolExecutor.execute caps "ask_user_question" input)
      with (ToolExecutor.askUserQuestion caps input).
    unfold ToolExecutor.askUserQuestion, try_catch, ToolExecutor.askUserQuestion_body,
      bind at 1.
    rewrite Hmap. cbn [lift ret]. rewrite Hmulti.
    unfold bind at 1. unfold bind at 1. rewrite Hpick. cbn [ret].
    unfold bind at 1. cbn [Js.is_str ToolExecutor.includes_custom orb].
    destruct (existsb (fun a => Js.is_str a "__custom__") selected).
    + unfold bind. rewrite (Htyped eq_refl). reflexivity.
    + reflexivity.
Qed.

Lemma multiple_choice_answer_witness :
  let input := (("multiSelect", VBool true) :: Samples.question) in
  Forall (fun a => a <> VStr "__custom__") [VStr "admin"] /\
  ToolExecutor.execute Scripted.caps "ask_user_question" input
    (Scripted.with_answers
       [Scripted.PickMany [VStr "__custom__"; VStr "admin"]; Scripted.Typed "Auditor"]
       Scripted.world0)
  = (Ok {| success := true;
           data := Some (VObj [ ("question", VStr "Who is the user?");
                                ("answer", VArr [VStr "admin"; VStr "Auditor"]) ]);
           error := None;
           requiresUserInput := Some true;
           userInput := Some (VArr [VStr "admin"; VStr "Auditor"]) |}, Scripted.world0).
Proof.
  exact (multiple_choice_answer Scripted.World Scripted.caps
           (("multiSelect", VBool true) :: Samples.question)
           [ VObj [("label", VStr "Admin"); ("value", VStr "admin");
                   ("description", VUndefined)];
             VObj [("label", VStr "Guest"); ("value", VStr "guest");
                   ("description", VUndefined)] ]
           [VStr "__custom__"; VStr "admin"] "Auditor"
           (Scripted.with_answers
              [Scripted.PickMany [VStr "__custom__"; VStr "admin"]; Scripted.Typed "Auditor"]
              Scripted.world0)
           (Scripted.with_answers [Scripted.Typed "Auditor"] Scripted.world0)
           Scripted.world0 eq_refl eq_refl eq_refl (fun _ => eq_refl)).
Defined.

(** X9. [ask_user_question] with options that cannot be mapped (the key
    is missing, the value is no array, or an option is [null] or
    [undefined]): the handler answers with a failure carrying the error
    message, shows no prompt and leaves the world as it was. *)
Theorem malformed_options_fail_without_prompt :
  forall (W : Type) (caps : Caps W) input e w,
    ToolExecutor.array_map "options" (Js.lookup input "options")
      ToolExecutor.question_option = inl e ->
    ToolExecutor.execute caps "ask_user_question" input w
    = (Ok (failed ("Failed to get user input: " ++ error_message e)), w).
Proof.
  intros W caps input e w Hmap.
  change (ToolExecutor.execute caps "ask_user_question" input)
    with (ToolExecutor.askUserQuestion caps input).
  unfold ToolExecutor.askUserQuestion, try_catch, ToolExecutor.askUserQuestion_body,
    bind at 1.
  rewrite Hmap. reflexivity.
Qed.

Lemma malformed_options_fail_without_prompt_witness :
  ToolExecutor.execute Scripted.caps "ask_user_question"
    [("question", VStr "Who is the user?")]
    (Scripted.with_answers [Scripted.Pick (VStr "admin")] Scripted.world0)
  = (Ok (failed
           "Failed to get user input: Cannot read properties of undefined (reading 'map')"),
     Scripted.with_answers [Scripted.Pick (VStr "admin")] Scripted.world0) /\
  ToolExecutor.execute Scripted.caps "ask_user_question"
    [("question", VStr "Who is the user?"); ("options", VArr [VNull])]
    Scripted.world0
  = (Ok (failed
           "Failed to get user input: Cannot read properties of null (reading 'label')"),
     Scripted.world0).
Proof.
  split.
  - exact (malformed_options_fail_without_prompt Scripted.World Scripted.caps
             [("question", VStr "Who is the user?")] _ _ eq_refl).
  - exact (malformed_options_fail_without_prompt Scripted.World Scripted.caps
             [("question", VStr "Who is the user?"); ("options", VArr [VNull])]
             _ _ eq_refl).
Defined.



Section StoreHandlerExtras.
Import ToolExecutor.


End StoreHandlerExtras.







(** X14. [list_stories] with a status filter returns the stories of
    that status and no other, in the store's order, shows that list,
    and counts it; when none has the status the answer is a success
    with count 0. *)
Theorem list_stories_filters_by_status :
  forall (W : Type) (caps : Caps W) input wanted all w w1,
    Js.lookup input "status" = VStr wanted ->
    wanted <> EmptyString ->
    storage_listStories caps (Js.lookup input "feature") w = (Ok all, w1) ->
    let kept := filter (fun s => String.eqb wanted (StoryStatus_str (status s))) all in
    Forall (fun s => StoryStatus_str (status s) = wanted) kept /\
    (forall s, In s all -> StoryStatus_str (status s) = wanted -> In s kept) /\
    ToolExecutor.execute caps "list_stories" input w
    = (Ok (succeeded (VObj [ ("count", VNum (Z.of_nat (length kept)));
                             ("stories", VArr (map ToolExecutor.story_summary kept)) ])),
       emit caps (DisplayStoryList kept) w1).
Proof.
  intros W caps input wanted all w w1 Hstatus Hne Hlist kept. split; [ | split].
  - apply Forall_forall. intros s Hin. subst kept.
    apply filter_In in Hin. destruct Hin as [_ Hs]. apply String.eqb_eq in Hs.
    symmetry. exact Hs.
  - intros s Hin Hs. subst kept. apply filter_In. split; [exact Hin | ].
    apply String.eqb_eq. symmetry. exact Hs.
  - change (ToolExecutor.execute caps "list_stories" input)
      with (ToolExecutor.listStories caps input).
    unfold ToolExecutor.listStories, try_catch, ToolExecutor.listStories_body, bind at 1.
    rewrite Hlist, Hstatus. cbn [Js.truthy Js.is_str].
    destruct (String.eqb_spec wanted EmptyString) as [Hempty | _]; [contradiction | ].
    cbn [negb]. unfold bind, effect. reflexivity.
Qed.

Lemma list_stories_filters_by_status_witness :
  ToolExecutor.execute Scripted.caps "list_stories" [("status", VStr "ready")] Samples.store
  = (Ok (succeeded (VObj [ ("count", VNum 1);
                           ("stories", VArr [ToolExecutor.story_summary Samples.invoice]) ])),
     Scripted.print (DisplayStoryList [Samples.invoice]) Samples.store) /\
  ToolExecutor.execute Scripted.caps "list_stories" [("status", VStr "done")] Samples.store
  = (Ok (succeeded (VObj [("count", VNum 0); ("stories", VArr [])])),
     Scripted.print (DisplayStoryList []) Samples.store).
Proof.
  split.
  - exact (proj2 (proj2 (list_stories_filters_by_status Scripted.World Scripted.caps
                           [("status", VStr "ready")] "ready"
                           [Samples.login; Samples.settled; Samples.invoice]
                           Samples.store Samples.store eq_refl
                           ltac:(discriminate) eq_refl))).
  - exact (proj2 (proj2 (list_stories_filters_by_status Scripted.World Scripted.caps
                           [("status", VStr "done")] "done"
                           [Samples.login; Samples.settled; Samples.invoice]
                           Samples.store Samples.store eq_refl
                           ltac:(discriminate) eq_refl))).
Defined.


(* ================================================================== *)
(** * More on story search *)
(* ================================================================== *)

Section SearchExtras.

Lemma occurs_refl t : occurs_ignoring_case t t.
Proof.
  exists EmptyString, t, EmptyString. split; [ | reflexivity].
  cbn. clear. induction t as [| c t IH]; [reflexivity | cbn; rewrite <- IH; reflexivity].
Qed.

Lemma append_assoc (a b c : string) : ((a ++ b) ++ c = a ++ (b ++ c))%string.
Proof. induction a as [| x a IH]; [reflexivity | cbn; rewrite IH; reflexivity]. Qed.


Lemma occurs_in_context q t before after :
  occurs_ignoring_case q t -> occurs_ignoring_case q (before ++ t ++ after).
Proof.
  intros [b [seg [a [Ht Hseg]]]].
  exists (before ++ b)%string, seg, (a ++ after)%string. split; [ | exact Hseg].
  rewrite Ht, !append_assoc. reflexivity.
Qed.




Lemma filter_all {A} (f : A -> bool) l :
  (forall x, In x l -> f x = true) -> filter f l = l.
Proof.
  induction l as [| x l IH]; intros Hall; [reflexivity | ].
  cbn. rewrite (Hall x (or_introl eq_refl)), IH; [reflexivity | ].
  intros y Hy. apply Hall. right. exact Hy.
Qed.


End SearchExtras.

(** X16. The empty query finds every story: searching for the empty
    string returns all the stories the store lists, in its order. *)
Theorem empty_query_finds_every_story :
  forall (W : Type) (caps : Caps W) w all w',
    storage_listStories caps VUndefined w = (Ok all, w') ->
    StorageManager.searchStories caps (VStr EmptyString) w = (Ok all, w').
Proof.
  intros W caps w all w' Hlist.
  rewrite (searchStories_filter caps EmptyString w all w' Hlist).
  rewrite filter_all; [reflexivity | ].
  intros story _. apply includes_iff. exists EmptyString. eexists. reflexivity.
Qed.

Lemma empty_query_finds_every_story_witness :
  StorageManager.searchStories Scripted.caps (VStr EmptyString) Samples.store
  = (Ok [Samples.login; Samples.settled; Samples.invoice], Samples.store).
Proof.
  exact (empty_query_finds_every_story Scripted.World Scripted.caps Samples.store
           [Samples.login; Samples.settled; Samples.invoice] Samples.store eq_refl).
Defined.





(** X19. [search_stories] without a query: the store is listed first,
    then lower-casing the missing query throws; the answer is a failure
    with that message and nothing is shown. *)
Theorem search_without_query_fails_after_listing :
  forall (W : Type) (caps : Caps W) input w all w',
    Js.lookup input "query" = VUndefined ->
    storage_listStories caps VUndefined w = (Ok all, w') ->
    ToolExecutor.execute caps "search_stories" input w
    = (Ok (failed ("Failed to search stories: "
                   ++ "Cannot read properties of undefined (reading 'toLowerCase')")),
       w').
Proof.
  intros W caps input w all w' Hquery Hlist.
  change (ToolExecutor.execute caps "search_stories" input)
    with (ToolExecutor.searchStories caps input).
  unfold ToolExecutor.searchStories, try_catch, ToolExecutor.searchStories_body, bind at 1.
  rewrite Hquery. unfold StorageManager.searchStories, bind at 1.
  rewrite Hlist. reflexivity.
Qed.

Lemma search_without_query_fails_after_listing_witness :
  ToolExecutor.execute Scripted.caps "search_stories" [] Samples.store
  = (Ok (failed ("Failed to search stories: "
                 ++ "Cannot read properties of undefined (reading 'toLowerCase')")),
     Samples.store).
Proof.
  exact (search_without_query_fails_after_listing Scripted.World Scripted.caps []
           Samples.store [Samples.login; Samples.settled; Samples.invoice]
           Samples.store eq_refl eq_refl).
Defined.

(* ================================================================== *)
(** * More on the INVEST heuristic *)
(* ================================================================== *)

(** X20. Whatever the story, each dimension score lies between 2 and
    10 and the overall score between 5 and 8: the three scores drawn
    from the number of acceptance criteria cannot all be low at once. *)
Theorem invest_scores_are_bounded :
  forall story,
    let a := ToolExecutor.investAnalysis story in
    Forall (fun x => 2 <= x <= 10)%Z (ToolExecutor.dimension_scores a) /\
    (5 <= overallScore a <= 8)%Z.
Proof.
  intros story. cbv zeta.
  unfold ToolExecutor.investAnalysis, ToolExecutor.dimension_scores.
  cbn [independent negotiable valuable estimable small testable overallScore
       score ToolExecutor.initialAnalysis length fold_left].
  destruct (length (dependencies story) =? 0)%nat;
    destruct (0 <? length (openQuestions story))%nat;
    destruct (ToolExecutor.has_soThat story);
    destruct (Nat.leb_spec 3 (length (acceptanceCriteria story)));
    destruct (Nat.leb_spec (length (acceptanceCriteria story)) 7);
    destruct (Nat.ltb_spec 0 (length (acceptanceCriteria story)));
    try lia;
    (split; [repeat constructor; lia | vm_compute; split; discriminate]).
Qed.

(** X21. A story gets no suggestion exactly when it has no dependency,
    a benefit, and between three and seven acceptance criteria. *)
Theorem no_suggestion_iff_well_shaped :
  forall story,
    suggestions (ToolExecutor.investAnalysis story) = [] <->
    dependencies story = [] /\
    ToolExecutor.has_soThat story = true /\
    3 <= length (acceptanceCriteria story) <= 7.
Proof.
  intros story.
  unfold ToolExecutor.investAnalysis. cbn [suggestions].
  unfold ToolExecutor.generateSuggestions, ToolExecutor.push_if.
  cbn [independent valuable estimable small testable suggestions score
       ToolExecutor.initialAnalysis].
  split.
  - intros Hnone.
    destruct (dependencies story) as [| d deps]; cbn [length Nat.eqb] in Hnone;
      destruct (ToolExecutor.has_soThat story);
      destruct (Nat.leb_spec 3 (length (acceptanceCriteria story)));
      destruct (Nat.leb_spec (length (acceptanceCriteria story)) 7);
      destruct (Nat.ltb_spec 0 (length (acceptanceCriteria story)));
      cbn in Hnone; try discriminate Hnone; try lia.
    repeat split; assumption.
  - intros [Hdeps [Hso Hc]]. rewrite Hdeps, Hso. cbn [length Nat.eqb].
    destruct (Nat.leb_spec 3 (length (acceptanceCriteria story))); [ | lia].
    destruct (Nat.leb_spec (length (acceptanceCriteria story)) 7); [ | lia].
    destruct (Nat.ltb_spec 0 (length (acceptanceCriteria story))); [ | lia].
    reflexivity.
Qed.

(** X22. No story gets more than four suggestions, and the advice to
    split the story never comes with the advice to add acceptance
    criteria. *)
Theorem suggestions_are_consistent :
  forall story,
    let given := suggestions (ToolExecutor.investAnalysis story) in
    length given <= 4 /\
    (In "Consider breaking this story into smaller pieces" given ->
     ~ In "Add more specific acceptance criteria" given /\
     ~ In "Add measurable acceptance criteria" given).
Proof.
  intros story. cbv zeta.
  unfold ToolExecutor.investAnalysis. cbn [suggestions].
  unfold ToolExecutor.generateSuggestions, ToolExecutor.push_if.
  cbn [independent valuable estimable small testable suggestions score
       ToolExecutor.initialAnalysis].
  destruct (length (dependencies story) =? 0)%nat;
    destruct (ToolExecutor.has_soThat story);
    destruct (Nat.leb_spec 3 (length (acceptanceCriteria story)));
    destruct (Nat.leb_spec (length (acceptanceCriteria story)) 7);
    destruct (Nat.ltb_spec 0 (length (acceptanceCriteria story)));
    try lia; cbn;
    (split; [lia | ]);
    intros Hin; split; intros Hother;
    repeat (destruct Hin as [Hin | Hin]; try discriminate Hin);
    repeat (destruct Hother as [Hother | Hother]; try discriminate Hother);
    try contradiction.
Qed.

(* ================================================================== *)
(** * Project root, credential and client *)
(* ================================================================== *)

Section PathFacts.

Lemma path_eqb_eq a b : Path.eqb a b = true <-> a = b.
Proof.
  unfold Path.eqb. destruct (list_eq_dec string_dec a b); split; congruence.
Qed.

Lemma removelast_shorter (p : Path.path) :
  p <> [] -> S (length (removelast p)) = length p.
Proof.
  intros Hne. rewrite (app_removelast_last EmptyString Hne) at 2.
  rewrite length_app. cbn. lia.
Qed.

Lemma dirname_differs (p : Path.path) :
  p <> [] -> Path.eqb p (Path.dirname p) = false.
Proof.
  intros Hne. destruct (Path.eqb p (Path.dirname p)) eqn:Heq; [ | reflexivity].
  apply path_eqb_eq in Heq. pose proof (removelast_shorter p Hne) as Hlen.
  unfold Path.dirname in Heq. rewrite <- Heq in Hlen. lia.
Qed.

Lemma above_refl p : Path.above p p.
Proof. exists []. rewrite app_nil_r. reflexivity. Qed.

Lemma above_dirname d p : Path.above d (Path.dirname p) -> Path.above d p.
Proof.
  intros [rest Hrest]. destruct p as [| x p]; [exists rest; exact Hrest | ].
  assert (Hne : x :: p <> []) by discriminate.
  exists (rest ++ [last (x :: p) EmptyString])%list.
  rewrite (app_removelast_last EmptyString Hne) at 1.
  unfold Path.dirname in Hrest. rewrite Hrest, app_assoc. reflexivity.
Qed.

Lemma above_cases d p : Path.above d p -> d = p \/ Path.above d (Path.dirname p).
Proof.
  intros [rest Hrest]. destruct rest as [| x rest].
  - left. rewrite app_nil_r in Hrest. symmetry. exact Hrest.
  - right. exists (removelast (x :: rest)). unfold Path.dirname. rewrite Hrest.
    apply removelast_app. discriminate.
Qed.

Lemma above_antisym d p : Path.above d p -> Path.above p d -> d = p.
Proof.
  intros [r1 H1] [r2 H2]. rewrite H1 in H2.
  apply (f_equal (@length _)) in H2. rewrite !length_app in H2.
  destruct r1; [rewrite app_nil_r in H1; symmetry; exact H1 | cbn in H2; lia].
Qed.

End PathFacts.

Section FindRoot.
Variable existsSync : Path.path -> bool.

Lemma findProjectRoot_loop_found fuel : forall dir,
  length dir < fuel ->
  exists r,
    Config.findProjectRoot_loop existsSync fuel dir = Some r /\
    match r with
    | Some root =>
        root <> [] /\ Path.above root dir /\
        existsSync (Path.join root Config.CONFIG_FILE) = true /\
        forall d, Path.above root d -> Path.above d dir -> d <> root ->
                  existsSync (Path.join d Config.CONFIG_FILE) = false
    | None =>
        forall d, d <> [] -> Path.above d dir ->
                  existsSync (Path.join d Config.CONFIG_FILE) = false
    end.
Proof.
  induction fuel as [| fuel IH]; intros dir Hfuel; [lia | ].
  cbn [Config.findProjectRoot_loop].
  destruct dir as [| x dir].
  - exists None. split; [reflexivity | ].
    intros d Hne [rest Hrest]. destruct d; [contradiction | discriminate Hrest].
  - assert (Hne : x :: dir <> []) by discriminate.
    rewrite (dirname_differs _ Hne). cbn [negb].
    destruct (existsSync (Path.join (x :: dir) Config.CONFIG_FILE)) eqn:Hhere.
    + exists (Some (x :: dir)). split; [reflexivity | ].
      split; [exact Hne | ]. split; [apply above_refl | ]. split; [exact Hhere | ].
      intros d Hup Hdown Hdiff. exfalso. apply Hdiff.
      apply above_antisym; assumption.
    + pose proof (removelast_shorter _ Hne) as Hlen.
      destruct (IH (Path.dirname (x :: dir))) as [r [Hrun Hr]];
        [unfold Path.dirname; lia | ].
      exists r. split; [exact Hrun | ].
      destruct r as [root | ].
      * destruct Hr as [Hroot [Habove [Hconf Hnearest]]].
        split; [exact Hroot | ]. split; [apply above_dirname; exact Habove | ].
        split; [exact Hconf | ].
        intros d Hup Hdown Hdiff.
        destruct (above_cases d _ Hdown) as [-> | Hparent]; [exact Hhere | ].
        apply Hnearest; assumption.
      * intros d Hd Hdown.
        destruct (above_cases d _ Hdown) as [-> | Hparent]; [exact Hhere | ].
        apply Hr; assumption.
Qed.

End FindRoot.

(** X23. [findProjectRoot] always returns.  When it returns a
    directory, that directory is the start directory or one above it,
    it holds the file [one-p.yaml], no directory between it and the
    start does, and it is not the root of the file system.  When it
    returns [null], no directory from the start up to, but not
    including, the root holds the file: a [one-p.yaml] in the root
    directory is never looked for. *)
Theorem findProjectRoot_nearest_below_root :
  forall (existsSync : Path.path -> bool) (startDir : Path.path),
    exists r,
      Config.findProjectRoot existsSync startDir = Some r /\
      match r with
      | Some root =>
          root <> [] /\ Path.above root startDir /\
          existsSync (Path.join root Config.CONFIG_FILE) = true /\
          forall d, Path.above root d -> Path.above d startDir -> d <> root ->
                    existsSync (Path.join d Config.CONFIG_FILE) = false
      | None =>
          forall d, d <> [] -> Path.above d startDir ->
                    existsSync (Path.join d Config.CONFIG_FILE) = false
      end.
Proof.
  intros existsSync startDir. unfold Config.findProjectRoot.
  apply findProjectRoot_loop_found. lia.
Qed.

(** The file in the root directory alone is not found; one level down
    it is. *)
Example findProjectRoot_examples :
  Config.findProjectRoot (fun p => Path.eqb p ["one-p.yaml"]) ["home"; "ann"]
  = Some None /\
  Config.findProjectRoot (fun p => Path.eqb p ["home"; "one-p.yaml"])
    ["home"; "ann"; "shop"]
  = Some (Some ["home"]).
Proof. split; reflexivity. Qed.

Section ClientFacts.
Import Client.

Lemma getAnthropicClient_coherent key c :
  coherent c -> coherent (snd (getAnthropicClient key c)).
Proof.
  intros Hc. unfold getAnthropicClient.
  destruct (Config.non_empty key) as [k | ]; [ | exact Hc].
  destruct (client c) as [existing | ] eqn:Hclient.
  - destruct (differs (currentApiKey c) k); [reflexivity | exact Hc].
  - reflexivity.
Qed.

Lemma calls_coherent keys : forall c, coherent c -> coherent (calls keys c).
Proof.
  induction keys as [| key keys IH]; intros c Hc; [exact Hc | ].
  cbn [calls]. apply IH. apply getAnthropicClient_coherent. exact Hc.
Qed.

Lemma differs_false current k : differs current k = false <-> current = Some k.
Proof.
  unfold differs. destruct current as [k' | ]; [ | split; discriminate].
  destruct (String.eqb_spec k' k); cbn; split; congruence.
Qed.

End ClientFacts.

(** X24. After any series of calls, [getAnthropicClient] returns a
    client built with the key current at the call, never a stale one.
    It returns the cached client, building nothing, exactly when one is
    cached for that very key; otherwise it builds a new client.  Without
    a key it throws and leaves the cache as it was. *)
Theorem client_follows_the_key :
  forall (earlier : list (option string)) (key : option string),
    let c := Client.calls earlier Client.initial in
    match Client.getAnthropicClient key c with
    | (inr returned, c') =>
        Config.non_empty key = Some (Client.apiKey returned) /\
        Client.client c' = Some returned /\
        Client.currentApiKey c' = Some (Client.apiKey returned) /\
        match Client.client c with
        | Some cached =>
            if String.eqb (Client.apiKey cached) (Client.apiKey returned)
            then returned = cached /\ c' = c
            else Client.serial returned = Client.built c /\
                 Client.built c' = S (Client.built c)
        | None =>
            Client.serial returned = Client.built c /\
            Client.built c' = S (Client.built c)
        end
    | (inl e, c') =>
        e = Client.noKey /\ c' = c /\ Config.non_empty key = None
    end.
Proof.
  intros earlier key c.
  assert (Hc : Client.coherent c) by (apply calls_coherent; exact I).
  unfold Client.getAnthropicClient. unfold Client.coherent in Hc.
  destruct (Config.non_empty key) as [k | ]; [ | repeat split].
  destruct (Client.client c) as [cached | ] eqn:Hclient.
  - rewrite Hc. cbn [Client.differs].
    destruct (String.eqb_spec (Client.apiKey cached) k) as [Hk | Hk]; cbn [negb].
    + subst k. rewrite String.eqb_refl. repeat split; assumption.
    + cbn [Client.apiKey Client.client Client.currentApiKey Client.built Client.serial].
      destruct (String.eqb_spec (Client.apiKey cached) k); [contradiction | ].
      repeat split.
  - repeat split.
Qed.

(** X25. Which credential the client gets.  A non-empty
    [ANTHROPIC_API_KEY] wins over the settings file; an absent or empty
    one falls back to the key of the settings; with neither, the call
    throws the no-key error and leaves the cache as it was. *)
Theorem credential_resolution :
  forall (earlier : list (option string)) envKey settings,
    let c := Client.calls earlier Client.initial in
    let key := Config.getApiKey envKey settings in
    match Config.non_empty envKey,
          Config.non_empty (option_map Config.s_apiKey settings) with
    | Some k, _ | None, Some k =>
        key = Some k /\
        exists returned c',
          Client.getAnthropicClient key c = (inr returned, c') /\
          Client.apiKey returned = k
    | None, None =>
        key = None /\ Client.getAnthropicClient key c = (inl Client.noKey, c)
    end.
Proof.
  intros earlier envKey settings c key.
  assert (Hc : Client.coherent c) by (apply calls_coherent; exact I).
  assert (Hkey : forall key0 k, Config.non_empty key0 = Some k ->
                 exists returned c',
                   Client.getAnthropicClient key0 c = (inr returned, c') /\
                   Client.apiKey returned = k).
  { intros key0 k Hnon. unfold Client.getAnthropicClient. rewrite Hnon.
    unfold Client.coherent in Hc.
    destruct (Client.client c) as [cached | ].
    - destruct (Client.differs (Client.currentApiKey c) k) eqn:Hdiff.
      + eexists _, _. split; reflexivity.
      + apply differs_false in Hdiff. exists cached, c. split; [reflexivity | ].
        congruence.
    - eexists _, _. split; reflexivity. }
  assert (Hnon : forall o k, Config.non_empty o = Some k ->
                 Config.non_empty (Some k) = Some k).
  { intros o k Ho. unfold Config.non_empty in *. destruct o as [x | ]; [ | discriminate Ho].
    destruct (String.eqb x EmptyString) eqn:Hx; [discriminate Ho | ].
    injection Ho as <-. rewrite Hx. reflexivity. }
  subst key. unfold Config.getApiKey.
  destruct (Config.non_empty envKey) as [k | ] eqn:Henv.
  - split; [reflexivity | ]. apply Hkey. exact (Hnon _ _ Henv).
  - destruct (Config.non_empty (option_map Config.s_apiKey settings)) as [k | ] eqn:Hset.
    + split; [reflexivity | ]. apply Hkey. exact (Hnon _ _ Hset).
    + split; reflexivity.
Qed.

(** X26. [isValidApiKeyFormat] accepts exactly the keys that start with
    ["sk-ant-"] and have at least 14 more characters. *)
Theorem valid_api_key_format :
  forall key,
    Config.isValidApiKeyFormat key = true <->
    exists rest, key = ("sk-ant-" ++ rest)%string /\ 14 <= String.length rest.
Proof.
  intros key. unfold Config.isValidApiKeyFormat.
  rewrite andb_true_iff, prefix_iff, Nat.ltb_lt. split.
  - intros [[rest Hrest] Hlen]. exists rest. split; [exact Hrest | ].
    rewrite Hrest in Hlen. cbn in Hlen. lia.
  - intros [rest [Hrest Hlen]]. split; [exists rest; exact Hrest | ].
    rewrite Hrest. cbn. lia.
Qed.

(** X27. [getModelInfo] returns an entry of [AVAILABLE_MODELS] with the
    id asked for, and nothing for an id that no entry has; the model
    that [getModel] falls back to without settings is a known one. *)
Theorem model_lookup :
  forall modelId,
    match Config.getModelInfo modelId with
    | Some m => In m Config.AVAILABLE_MODELS /\ Config.m_id m = modelId
    | None => ~ In modelId (map Config.m_id Config.AVAILABLE_MODELS)
    end /\
    Config.getModelInfo (Config.getModel None)
    = Some {| Config.m_id := "claude-sonnet-4-20250514";
              Config.m_name := "Claude Sonnet 4";
              Config.m_description := "Balanced performance and speed" |}.
Proof.
  intros modelId. split; [ | reflexivity].
  unfold Config.getModelInfo.
  destruct (find _ Config.AVAILABLE_MODELS) as [m | ] eqn:Hfind.
  - apply find_some in Hfind. destruct Hfind as [Hin Heq].
    split; [exact Hin | apply String.eqb_eq; exact Heq].
  - intros Hin. apply in_map_iff in Hin. destruct Hin as [m [Hid Hin]].
    pose proof (find_none _ _ Hfind m Hin) as Hno. cbn beta in Hno.
    rewrite Hid, String.eqb_refl in Hno. discriminate Hno.
Qed.

(* ================================================================== *)
(** * Listing and reading stories on disk *)
(* ================================================================== *)

Section DiskFacts.
Variable projectPath : Path.path.
Variable existsSync : Path.path -> bool.
Variable readdirSync : Path.path -> js_error + list string.
Variable isDirectory : Path.path -> js_error + bool.
Variable readFileSync : Path.path -> js_error + string.
Variable markdownToStory : string -> js_error + Story.





End DiskFacts.

Section DiskListing.
Variable projectPath : Path.path.
Variable existsSync : Path.path -> bool.
Variable readdirSync : Path.path -> js_error + list string.
Variable isDirectory : Path.path -> js_error + bool.
Variable readFileSync : Path.path -> js_error + string.
Variable markdownToStory : string -> js_error + Story.
Variable ls : Path.path -> list string.
Variable cat : Path.path -> string.
Hypothesis readdir_ok : forall p, readdirSync p = inr (ls p).
Hypothesis read_ok : forall p, readFileSync p = inr (cat p).


End DiskListing.






(** A file that does not parse: the lookup throws, the listing goes on. *)
Example unparsable_story_file :
  Disk.getStory ["shop"] Disk.demo_exists (fun p => inr (Disk.demo_cat p))
    Disk.demo_parse "auth" "broken" = inl (JsError "ZodError" "Required") /\
  Disk.getStory ["shop"] Disk.demo_exists (fun p => inr (Disk.demo_cat p))
    Disk.demo_parse "auth" "logout" = inr None.
Proof. split; reflexivity. Qed.

(* ================================================================== *)
(** * Listing features *)
(* ================================================================== *)

Section ListFeatures.
Context {W : Type} (caps : Caps W).
Variable storiesOf : Feature -> W -> list Story.
Hypothesis listing_reads_only :
  forall f w, storage_listStories caps (VStr (f_id f)) w = (Ok (storiesOf f w), w).

Lemma displayFeatures_shows_each features : forall w,
  ToolExecutor.displayFeatures caps features w
  = (Ok tt,
     fold_left (fun w0 f => emit caps (DisplayFeature f (length (storiesOf f w0))) w0)
       features w).
Proof.
  induction features as [| f rest IH]; intros w; [reflexivity | ].
  cbn [ToolExecutor.displayFeatures fold_left]. unfold bind at 1.
  rewrite listing_reads_only. unfold bind at 1, effect. apply IH.
Qed.

End ListFeatures.

(** X30. [list_features], on a store whose listing of stories only
    reads: every feature is shown once, in the store's order, with the
    number of its stories at that moment, and the answer counts the
    features and summarizes them in the same order; without features
    the answer is a success with count 0. *)
Theorem list_features_shows_each_feature :
  forall (W : Type) (caps : Caps W) (storiesOf : Feature -> W -> list Story)
         input features w w1,
    (forall f w0,
        storage_listStories caps (VStr (f_id f)) w0 = (Ok (storiesOf f w0), w0)) ->
    storage_listFeatures caps w = (Ok features, w1) ->
    ToolExecutor.execute caps "list_features" input w
    = (Ok (succeeded
             (VObj [ ("count", VNum (Z.of_nat (length features)));
                     ("features", VArr (map ToolExecutor.feature_summary features)) ])),
       fold_left (fun w0 f => emit caps (DisplayFeature f (length (storiesOf f w0))) w0)
         features w1).
Proof.
  intros W caps storiesOf input features w w1 Hreads Hlist.
  change (ToolExecutor.execute caps "list_features" input)
    with (ToolExecutor.listFeatures caps).
  unfold ToolExecutor.listFeatures, try_catch, ToolExecutor.listFeatures_body, bind at 1.
  rewrite Hlist. unfold bind at 1.
  rewrite (displayFeatures_shows_each caps storiesOf Hreads). reflexivity.
Qed.

Lemma list_features_shows_each_feature_witness :
  ToolExecutor.execute Scripted.caps "list_features" [] Doubles.catalogue
  = (Ok (succeeded
           (VObj [ ("count", VNum 2);
                   ("features", VArr [ ToolExecutor.feature_summary Doubles.auth;
                                       ToolExecutor.feature_summary Doubles.billing ]) ])),
     Scripted.print (DisplayFeature Doubles.billing 1)
       (Scripted.print (DisplayFeature Doubles.auth 2) Doubles.catalogue)).
Proof.
  refine (list_features_shows_each_feature Scripted.World Scripted.caps
            (fun f w0 =>
               if Js.truthy (VStr (f_id f))
               then match Scripted.find (f_id f) (Scripted.disk w0) with
                    | Some files => Scripted.parsed files
                    | None => []
                    end
               else flat_map (fun d => Scripted.parsed (snd d)) (Scripted.disk w0))
            [] [Doubles.auth; Doubles.billing] Doubles.catalogue Doubles.catalogue
            _ eq_refl).
  intros f w0. cbn [storage_listStories Scripted.caps]. unfold Scripted.listStories.
  destruct (Js.truthy (VStr (f_id f))); [ | reflexivity].
  destruct (Scripted.find (f_id f) (Scripted.disk w0)); reflexivity.
Defined.
